(** * fromatic-backend: form upload, normalisation and persistence

    A shallow embedding of [app/main.py] (the FastAPI request handlers) and
    [app/schemas.py] (the Pydantic response models), together with the
    properties of the form-field normalisation and of the persistence
    contract that the specification states.

    Conventions.
    - A Python [str] is a Rocq [string]; every character stands for the code
      point with the same number (U+0000 .. U+00FF).
    - A Python value coming out of [json.loads] is a [pyval].
    - A handler runs in the monad [M]: it threads the database and the
      SQLAlchemy session and either returns a value or raises an exception.
    - The library decoders [json.loads] and [pandas.read_excel] are section
      variables: the handlers are verified for every behaviour of them. *)

From Stdlib Require Import Bool Ascii String List ZArith Lia PrimFloat DecimalString.
Import ListNotations.

Set Warnings "-register-all".

Local Open Scope string_scope.
Local Open Scope list_scope.

(* ================================================================== *)
(** ** Python strings *)

Module PyStr.

(** [str.isspace] on one character, for the code points below 256:
    TAB..CR, FS..US, SPACE, NEL and NBSP. *)
Definition isspace (c : ascii) : bool :=
  let n := nat_of_ascii c in
  (((9 <=? n) && (n <=? 13)) || ((28 <=? n) && (n <=? 32))
   || (n =? 133) || (n =? 160))%nat.

(** [str.lower] on one character: A..Z, and the upper-case letters of the
    Latin-1 block (U+00C0 .. U+00DE without the multiplication sign). *)
Definition lower_char (c : ascii) : ascii :=
  let n := nat_of_ascii c in
  if (((65 <=? n) && (n <=? 90))
      || ((192 <=? n) && (n <=? 222) && negb (n =? 215)))%nat
  then ascii_of_nat (n + 32) else c.

Fixpoint lower (s : string) : string :=
  match s with
  | EmptyString => EmptyString
  | String c s' => String (lower_char c) (lower s')
  end.

Fixpoint lstrip (s : string) : string :=
  match s with
  | EmptyString => EmptyString
  | String c s' => if isspace c then lstrip s' else s
  end.

Fixpoint rstrip (s : string) : string :=
  match s with
  | EmptyString => EmptyString
  | String c s' =>
      match rstrip s' with
      | EmptyString => if isspace c then EmptyString else String c EmptyString
      | r => String c r
      end
  end.

(** [s.strip()] *)
Definition strip (s : string) : string := rstrip (lstrip s).

(** [s.split(sep)] for a separator of one character; the handlers only
    split on [","].  The result is never empty: [''.split(',') == ['']]. *)
Fixpoint split (sep : ascii) (s : string) : list string :=
  match s with
  | EmptyString => [EmptyString]
  | String c s' =>
      if Ascii.eqb c sep then EmptyString :: split sep s'
      else match split sep s' with
           | [] => [String c EmptyString]
           | piece :: rest => String c piece :: rest
           end
  end.

Fixpoint string_rev (s : string) : string :=
  match s with
  | EmptyString => EmptyString
  | String c s' => string_rev s' ++ String c EmptyString
  end.

(** [s.startswith(prefix)] *)
Fixpoint startswith (s pre : string) : bool :=
  match pre, s with
  | EmptyString, _ => true
  | String a pre', String b s' => Ascii.eqb a b && startswith s' pre'
  | String _ _, EmptyString => false
  end.

(** [s.endswith(suffix)] *)
Definition endswith (s suf : string) : bool :=
  startswith (string_rev s) (string_rev suf).

(** truth value of a [str]: the empty string is false *)
Definition nonempty (s : string) : bool :=
  match s with EmptyString => false | _ => true end.

(** [x in [a, b, ...]] for strings *)
Definition in_list (x : string) (l : list string) : bool :=
  existsb (String.eqb x) l.

(** all characters are white space *)
Fixpoint all_space (s : string) : bool :=
  match s with
  | EmptyString => true
  | String c s' => isspace c && all_space s'
  end.

(** [sep.join(l)] for a separator of one character *)
Fixpoint join (sep : ascii) (l : list string) : string :=
  match l with
  | [] => EmptyString
  | [piece] => piece
  | piece :: l' => piece ++ String sep (join sep l')
  end.

(** [sep in s] *)
Fixpoint contains (sep : ascii) (s : string) : bool :=
  match s with
  | EmptyString => false
  | String c s' => Ascii.eqb c sep || contains sep s'
  end.

End PyStr.

Arguments PyStr.in_list : simpl never.

(* ================================================================== *)
(** ** Python values and exceptions *)

(** What [json.loads] returns, and what is stored in a JSON column. A [dict]
    keeps its insertion order; its keys are pairwise different. *)
Inductive pyval : Type :=
| PNone
| PBool (b : bool)
| PInt (n : Z)
| PFloat (f : float)
| PStr (s : string)
| PList (l : list pyval)
| PDict (kv : list (string * pyval)).

Definition pydict : Type := list (string * pyval).

(** [bool(v)], as in [if not v] *)
Definition truthy (v : pyval) : bool :=
  match v with
  | PNone => false
  | PBool b => b
  | PInt n => negb (n =? 0)%Z
  | PFloat f => negb (PrimFloat.eqb f 0%float)
  | PStr s => PyStr.nonempty s
  | PList l => match l with [] => false | _ => true end
  | PDict kv => match kv with [] => false | _ => true end
  end.

Module Dict.

(** [d.get(k)] on the entries of a dict: [None] here is "no such key" *)
Fixpoint lookup (d : pydict) (k : string) : option pyval :=
  match d with
  | [] => None
  | (k', v) :: d' => if String.eqb k k' then Some v else lookup d' k
  end.

(** [k in d] *)
Definition mem (d : pydict) (k : string) : bool :=
  match lookup d k with Some _ => true | None => false end.

(** [d[k] = v]: an existing key keeps its place, a new one goes last *)
Fixpoint set (d : pydict) (k : string) (v : pyval) : pydict :=
  match d with
  | [] => [(k, v)]
  | (k', v') :: d' =>
      if String.eqb k k' then (k', v) :: d' else (k', v') :: set d' k v
  end.

(** [d.pop(k, None)], the popped value dropped *)
Fixpoint pop (d : pydict) (k : string) : pydict :=
  match d with
  | [] => []
  | (k', v') :: d' =>
      if String.eqb k k' then pop d' k else (k', v') :: pop d' k
  end.

End Dict.

(** The subclasses of [sqlalchemy.exc.SQLAlchemyError] that the store can
    raise: a violated constraint, or any other failure of the storage, a
    value that the driver cannot bind included. *)
Inductive sqlalchemy_error : Type :=
| IntegrityError
| OperationalError.

(** Exceptions. The [detail] of an [HTTPException] is either a literal or an
    f-string that ends in the text of a caught exception. *)
Inductive exc : Type :=
| HTTPException (status_code : Z) (detail : detail)
| SAError (e : sqlalchemy_error)
| AttributeError (attr : string)
| JSONDecodeError
| ValidationError
| OtherError (what : string)
with detail : Type :=
| Text (s : string)
| Caused (prefix : string) (cause : exc).

(** [isinstance(e, SQLAlchemyError)] and [isinstance(e, IntegrityError)] *)
Definition is_SQLAlchemyError (e : exc) : bool :=
  match e with SAError _ => true | _ => false end.

Definition is_IntegrityError (e : exc) : bool :=
  match e with SAError IntegrityError => true | _ => false end.

(** A computation that returns or raises. *)
Definition res (A : Type) : Type := exc + A.

Definition res_bind {A B : Type} (m : res A) (k : A -> res B) : res B :=
  match m with
  | inl e => inl e
  | inr a => k a
  end.

Notation "'let?' x ':=' m 'in' k" := (res_bind m (fun x => k))
  (at level 10, x pattern, m at level 100, k at level 200).

(** [data.get(key)]: only a dict has [get]; a missing key gives [None] *)
Definition py_get (data : pyval) (key : string) : res pyval :=
  match data with
  | PDict kv =>
      match Dict.lookup kv key with
      | Some v => inr v
      | None => inr PNone
      end
  | _ => inl (AttributeError "get")
  end.

(* ================================================================== *)
(** ** The spreadsheet, as [pandas.read_excel] returns it *)

(** A cell of the frame. An empty cell of the sheet is [NaN], a float. *)
Inductive cell : Type :=
| CStr (s : string)
| CNaN
| CInt (n : Z)
| CFloat (f : float)
| CBool (b : bool).

Record DataFrame : Type := mkDataFrame {
  columns : list string;
  values : list (list cell)
}.

(** One row of [df.iterrows()]: the cells labelled by the column names. *)
Definition Series : Type := list (string * cell).

Definition iterrows (df : DataFrame) : list Series :=
  map (fun r => combine (columns df) r) (values df).

(** [row.get(key, default)] *)
Fixpoint Series_get (row : Series) (key : string) (default : cell) : cell :=
  match row with
  | [] => default
  | (k, c) :: row' => if String.eqb key k then c else Series_get row' key default
  end.

(** [c.strip()]: only a [str] has the method *)
Definition cell_strip (c : cell) : res string :=
  match c with
  | CStr s => inr (PyStr.strip s)
  | _ => inl (AttributeError "strip")
  end.

(** [c.split(",")] *)
Definition cell_split (c : cell) (sep : ascii) : res (list string) :=
  match c with
  | CStr s => inr (PyStr.split sep s)
  | _ => inl (AttributeError "split")
  end.

(** [[option.strip() for option in pieces if option.strip()]] *)
Definition strip_nonempty (pieces : list string) : list string :=
  map PyStr.strip (filter (fun option => PyStr.nonempty (PyStr.strip option)) pieces).

(** The body of the loop over the rows ([upload_file], the [.xlsx] branch):
    the dict [field_json] built from one row. *)
Definition field_json_of_row (row : Series) : res pydict :=
  let? label := cell_strip (Series_get row "Label" (CStr "")) in
  let? type := cell_strip (Series_get row "Type" (CStr "")) in
  let? required := cell_strip (Series_get row "Required" (CStr "")) in
  let field_json : pydict :=
    [ ("label", PStr label);
      ("type", PStr type);
      ("validation",
       PDict [("required", PBool (String.eqb (PyStr.lower required) "yes"))]) ] in
  (* Add options only if type is Dropdown or Multiple Choice *)
  let? field_json :=
    if PyStr.in_list type ["Dropdown"; "Multiple Choice"] then
      let options := Series_get row "Option" (CStr "") in
      let? pieces := cell_split options "," in
      inr (Dict.set field_json "options"
             (PList (map PStr (strip_nonempty pieces))))
    else inr field_json in
  (* Remove options if type is Text or Checkbox *)
  let field_json :=
    if PyStr.in_list type ["Text"; "Checkbox"]
    then Dict.pop field_json "options" else field_json in
  inr field_json.

(** [for _, row in df.iterrows(): ... fields.append(field_json)] *)
Fixpoint append_rows (rows : list Series) (fields : list pyval) : res (list pyval) :=
  match rows with
  | [] => inr fields
  | row :: rows' =>
      let? field_json := field_json_of_row row in
      append_rows rows' (fields ++ [PDict field_json])
  end.

(* ================================================================== *)
(** ** The relational store *)

(** Modelled from the spec: [app/models.py] is not among the sources. The
    three tables carry the attributes of the data model: the primary keys are
    assigned by the store, [clerk_user_id] and [Form.form_id] are unique, the
    name of a form is a string, the owner of a form is missing or refers to
    a stored user, the form of a response is missing or refers to a stored
    form, and a JSON column gives back the value it was given. A transient
    object, not yet flushed, has [id = None]. *)
Module User.
Record t : Type := mk {
  id : option Z;
  clerk_user_id : string;
  email : string
}.
End User.

Module Form.
Record t : Type := mk {
  id : option Z;
  form_id : string;
  user_id : option Z;
  name : string;
  fields : pyval
}.
End Form.

Module Response.
Record t : Type := mk {
  id : option Z;
  form_id : option Z;
  data : pyval
}.
End Response.

Record database : Type := mkDatabase {
  users : list User.t;
  forms : list Form.t;
  responses : list Response.t
}.

(** The objects of a session. [INewForm] is a [Form(...)] object that was
    not flushed yet: its attributes are the Python values it was built with,
    the name among them; once flushed it is the row, an [IForm]. *)
Inductive instance : Type :=
| IUser (u : User.t)
| IForm (f : Form.t)
| IResponse (r : Response.t)
| INewForm (form_id : string) (user_id : option Z) (name fields : pyval).

Definition instance_id (i : instance) : option Z :=
  match i with
  | IUser u => User.id u
  | IForm f => Form.id f
  | IResponse r => Response.id r
  | INewForm _ _ _ _ => None
  end.

(** A Python value bound to a string column. A [str] is stored as it is;
    what becomes of a value of another type is up to the driver, [text_of]:
    it stores a text for it, or refuses the statement. *)
Definition bind_string (text_of : pyval -> option string) (v : pyval) : res string :=
  match v with
  | PStr s => inr s
  | _ =>
      match text_of v with
      | Some s => inr s
      | None => inl (SAError OperationalError)
      end
  end.

(** A foreign key: [NULL], or the primary key of a row of the other table. *)
Definition references {A : Type} (pk : A -> option Z) (rows : list A)
    (fk : option Z) : bool :=
  match fk with
  | None => true
  | Some k =>
      existsb (fun r => match pk r with Some i => (i =? k)%Z | None => false end)
        rows
  end.

(** the next value of a serial primary key *)
Definition fresh_pk {A : Type} (pk : A -> option Z) (rows : list A) : Z :=
  1 + fold_right (fun r m => Z.max (match pk r with Some i => i | None => 0%Z end) m)
        0%Z rows.

(** [INSERT] of one transient object: the values are bound to the columns,
    the unique constraints and the foreign keys are checked, and the
    primary key is assigned. *)
Definition insert (text_of : pyval -> option string) (i : instance) (d : database)
  : res (instance * database) :=
  match i with
  | IUser u =>
      if existsb (fun u' => String.eqb (User.clerk_user_id u') (User.clerk_user_id u))
           (users d)
      then inl (SAError IntegrityError)
      else
        let u' := User.mk (Some (fresh_pk User.id (users d)))
                    (User.clerk_user_id u) (User.email u) in
        inr (IUser u', mkDatabase (users d ++ [u']) (forms d) (responses d))
  | IForm f =>
      if existsb (fun f' => String.eqb (Form.form_id f') (Form.form_id f)) (forms d)
         || negb (references User.id (users d) (Form.user_id f))
      then inl (SAError IntegrityError)
      else
        let f' := Form.mk (Some (fresh_pk Form.id (forms d)))
                    (Form.form_id f) (Form.user_id f) (Form.name f) (Form.fields f) in
        inr (IForm f', mkDatabase (users d) (forms d ++ [f']) (responses d))
  | INewForm form_id user_id name fields =>
      let? name := bind_string text_of name in
      if existsb (fun f' => String.eqb (Form.form_id f') form_id) (forms d)
         || negb (references User.id (users d) user_id)
      then inl (SAError IntegrityError)
      else
        let f' := Form.mk (Some (fresh_pk Form.id (forms d)))
                    form_id user_id name fields in
        inr (IForm f', mkDatabase (users d) (forms d ++ [f']) (responses d))
  | IResponse r =>
      if negb (references Form.id (forms d) (Response.form_id r))
      then inl (SAError IntegrityError)
      else
        let r' := Response.mk (Some (fresh_pk Response.id (responses d)))
                    (Response.form_id r) (Response.data r) in
        inr (IResponse r', mkDatabase (users d) (forms d) (responses d ++ [r']))
  end.

(** The flush of a commit: every transient object of the session is
    inserted, in the order it was added. *)
Fixpoint flush (text_of : pyval -> option string) (objs : list instance)
    (d : database) : res (list instance * database) :=
  match objs with
  | [] => inr ([], d)
  | i :: objs' =>
      let? (i', d') :=
        match instance_id i with
        | Some _ => inr (i, d)
        | None => insert text_of i d
        end in
      let? (objs'', d'') := flush text_of objs' d' in
      inr (i' :: objs'', d'')
  end.

(* ================================================================== *)
(** ** Sessions and the handler monad *)

(** The calls on a session, in the order they were made. *)
Inductive event : Type :=
| EvOpen
| EvQuery
| EvAdd
| EvCommit
| EvRefresh
| EvRollback
| EvClose.

(** The points at which the storage can fail. *)
Inductive db_op : Type :=
| OpQuery
| OpCommit
| OpRefresh.

(** What a request takes from its environment: the token that
    [nanoid.generate] draws, the failures of the storage, and what the
    driver of the database makes of a value that is not a [str] when it is
    bound to a string column. *)
Record env : Type := mkEnvironment {
  nanoid : string;
  fault : db_op -> option sqlalchemy_error;
  text_of : pyval -> option string
}.

(** A driver that writes an [int] in decimal and refuses a list, a mapping
    and the other values. *)
Definition decimal_text (v : pyval) : option string :=
  match v with
  | PInt n => Some (NilEmpty.string_of_int (Z.to_int n))
  | _ => None
  end.

Definition mkEnv (nanoid : string) (fault : db_op -> option sqlalchemy_error) : env :=
  mkEnvironment nanoid fault decimal_text.

(** The committed database, the objects of the open session, and the calls
    made on the session so far. *)
Record world : Type := mkWorld {
  db : database;
  session : list instance;
  log : list event
}.

Definition M (A : Type) : Type := env -> world -> res A * world.

Definition ret {A : Type} (a : A) : M A := fun _ w => (inr a, w).

Definition raise {A : Type} (e : exc) : M A := fun _ w => (inl e, w).

Definition bind {A B : Type} (m : M A) (k : A -> M B) : M B :=
  fun en w =>
    match m en w with
    | (inl e, w') => (inl e, w')
    | (inr a, w') => k a en w'
    end.

Definition lift {A : Type} (r : res A) : M A := fun _ w => (r, w).

Declare Scope handler_scope.
Delimit Scope handler_scope with handler.

Notation "x <- m ;; k" := (bind m (fun x => k))
  (at level 61, m at next level, right associativity) : handler_scope.
Notation "m ;; k" := (bind m (fun _ => k))
  (at level 61, right associativity) : handler_scope.

Local Open Scope handler_scope.

(** [try: body  except Exception as e: handler e] *)
Definition try_except {A : Type} (body : M A) (handler : exc -> M A) : M A :=
  fun en w =>
    match body en w with
    | (inl e, w') => handler e en w'
    | (inr a, w') => (inr a, w')
    end.

(** [try: body  finally: fin] *)
Definition try_finally {A : Type} (body : M A) (fin : M unit) : M A :=
  fun en w =>
    match body en w with
    | (r, w') =>
        match fin en w' with
        | (inl e, w'') => (inl e, w'')
        | (inr _, w'') => (r, w'')
        end
    end.

Definition record (ev : event) (w : world) : world :=
  mkWorld (db w) (session w) (log w ++ [ev]).

(** [db = SessionLocal()] *)
Definition SessionLocal : M unit :=
  fun _ w => (inr tt, mkWorld (db w) [] (log w ++ [EvOpen])).

(** [db.query(T).filter(p).first()] *)
Definition query_first {A : Type} (table : database -> list A) (p : A -> bool)
  : M (option A) :=
  fun en w =>
    match fault en OpQuery with
    | Some e => (inl (SAError e), record EvQuery w)
    | None => (inr (find p (table (db w))), record EvQuery w)
    end.

(** [db.query(T).filter(p).all()] *)
Definition query_all {A : Type} (table : database -> list A) (p : A -> bool)
  : M (list A) :=
  fun en w =>
    match fault en OpQuery with
    | Some e => (inl (SAError e), record EvQuery w)
    | None => (inr (filter p (table (db w))), record EvQuery w)
    end.

(** [db.add(obj)]; the result stands for the Python object [obj] *)
Definition add (i : instance) : M nat :=
  fun _ w =>
    (inr (List.length (session w)),
     mkWorld (db w) (session w ++ [i]) (log w ++ [EvAdd])).

(** [db.commit()]: all or nothing *)
Definition commit : M unit :=
  fun en w =>
    match fault en OpCommit with
    | Some e => (inl (SAError e), record EvCommit w)
    | None =>
        match flush (text_of en) (session w) (db w) with
        | inl e => (inl e, record EvCommit w)
        | inr (objs, d) => (inr tt, mkWorld d objs (log w ++ [EvCommit]))
        end
    end.

(** [db.refresh(obj)]; the reloaded object is returned *)
Definition refresh (obj : nat) : M instance :=
  fun en w =>
    match fault en OpRefresh with
    | Some e => (inl (SAError e), record EvRefresh w)
    | None =>
        match nth_error (session w) obj with
        | Some i => (inr i, record EvRefresh w)
        | None => (inl (OtherError "InvalidRequestError"), record EvRefresh w)
        end
    end.

(** [db.rollback()]: the transient objects leave the session *)
Definition rollback : M unit :=
  fun _ w =>
    (inr tt,
     mkWorld (db w)
       (filter (fun i => match instance_id i with Some _ => true | None => false end)
          (session w))
       (log w ++ [EvRollback])).

(** [db.close()] *)
Definition close : M unit :=
  fun _ w => (inr tt, mkWorld (db w) [] (log w ++ [EvClose])).

(** [Depends(get_db)]: the session is opened before the handler and closed
    in the [finally] of the generator. *)
Definition get_db {A : Type} (handler : M A) : M A :=
  SessionLocal ;; try_finally handler close.

(* ================================================================== *)
(** ** The Pydantic models of [app/schemas.py] *)

Module UserCreate.
Record t : Type := mk {
  clerk_user_id : string;
  email : string
}.
End UserCreate.

Module FormField.
Record t : Type := mk {
  label : string;
  type : string;
  options : option (list string);
  validation : option pydict
}.
End FormField.

Module FormResponse.
Record t : Type := mk {
  form_id : string;
  name : string;
  fields : list FormField.t
}.
End FormResponse.

Module ResponseData.
Record t : Type := mk {
  data : pydict
}.
End ResponseData.

(** Validation of a value against an annotation. A value of another type is
    rejected, it is not converted. *)
Definition validate_str (v : pyval) : res string :=
  match v with
  | PStr s => inr s
  | _ => inl ValidationError
  end.

Fixpoint validate_each {A : Type} (f : pyval -> res A) (l : list pyval) : res (list A) :=
  match l with
  | [] => inr []
  | v :: l' =>
      let? a := f v in
      let? l'' := validate_each f l' in
      inr (a :: l'')
  end.

(** [List[T]] *)
Definition validate_list {A : Type} (f : pyval -> res A) (v : pyval) : res (list A) :=
  match v with
  | PList l => validate_each f l
  | _ => inl ValidationError
  end.

(** [Optional[T] = None], for the entry of a key that may be missing *)
Definition validate_optional {A : Type} (f : pyval -> res A) (entry : option pyval)
  : res (option A) :=
  match entry with
  | None => inr None
  | Some PNone => inr None
  | Some v => let? a := f v in inr (Some a)
  end.

(** a field without default *)
Definition validate_required {A : Type} (f : pyval -> res A) (entry : option pyval)
  : res A :=
  match entry with
  | None => inl ValidationError
  | Some v => f v
  end.

Definition validate_dict (v : pyval) : res pydict :=
  match v with
  | PDict kv => inr kv
  | _ => inl ValidationError
  end.

(** a [FormField] from the dict [v] *)
Definition FormField_validate (v : pyval) : res FormField.t :=
  match v with
  | PDict kv =>
      let? label := validate_required validate_str (Dict.lookup kv "label") in
      let? type := validate_required validate_str (Dict.lookup kv "type") in
      let? options :=
        validate_optional (validate_list validate_str) (Dict.lookup kv "options") in
      let? validation := validate_optional validate_dict (Dict.lookup kv "validation") in
      inr (FormField.mk label type options validation)
  | _ => inl ValidationError
  end.

(** [FormResponse(form_id=form_id, name=name, fields=fields)] *)
Definition FormResponse_validate (form_id : string) (name fields : pyval)
  : res FormResponse.t :=
  let? name := validate_str name in
  let? fields := validate_list FormField_validate fields in
  inr (FormResponse.mk form_id name fields).

(* ================================================================== *)
(** ** The request handlers of [app/main.py] *)

Record UploadFile : Type := mkUploadFile {
  filename : string;
  contents : string
}.

Record JSONResponse : Type := mkJSONResponse {
  content : pyval;
  status_code : Z
}.

(** the value of a primary key in a response body *)
Definition pk_val (pk : option Z) : pyval :=
  match pk with
  | Some n => PInt n
  | None => PNone
  end.

Definition already_registered : exc :=
  HTTPException 400 (Text "User already registered.").

(** The exception that leaves [register_user] when [e] is caught by one of
    its two [except] clauses. *)
Definition register_error (e : exc) : exc :=
  if is_IntegrityError e then
    HTTPException 400 (Text "User with this email or Clerk ID already exists.")
  else
    HTTPException 500 (Caused "Error registering user: " e).

(** [POST /register/] *)
Definition register_user (user_data : UserCreate.t) : M pyval :=
  SessionLocal ;;
  try_finally
    (try_except
       ((* Check if the user already exists by clerk_user_id *)
        existing_user <-
          query_first users
            (fun u => String.eqb (User.clerk_user_id u)
                        (UserCreate.clerk_user_id user_data)) ;;
        match existing_user with
        | Some _ => raise already_registered
        | None =>
            new_user <-
              add (IUser (User.mk None (UserCreate.clerk_user_id user_data)
                            (UserCreate.email user_data))) ;;
            commit ;;
            new_user <- refresh new_user ;;
            ret (PDict [("message", PStr "User registered successfully");
                        ("user_id", pk_val (instance_id new_user))])
        end)
       (fun e =>
          if is_IntegrityError e then
            rollback ;;
            raise (HTTPException 400
                     (Text "User with this email or Clerk ID already exists."))
          else
            (* except Exception as e *)
            rollback ;;
            raise (HTTPException 500 (Caused "Error registering user: " e))))
    close.

(** [generate(size=10)]: the token is drawn by the environment *)
Definition generate : M string := fun en w => (inr (nanoid en), w).

Definition save_500 : exc :=
  HTTPException 500 (Text "Error saving form to the database.").

(** The second half of [upload_file]: the identifier is generated and the
    form is saved. *)
Definition save_form (user_id : option Z) (form_name fields : pyval) : M JSONResponse :=
  (* Generate a unique form_id using NanoID *)
  form_id <- generate ;;
  (* Save form data to the database *)
  SessionLocal ;;
  try_finally
    (try_except
       (new_form <- add (INewForm form_id user_id form_name fields) ;;
        commit ;;
        new_form <- refresh new_form ;;
        ret (mkJSONResponse
               (PDict [("message", PStr "Form uploaded successfully");
                       ("form_id",
                        match new_form with
                        | IForm f => PStr (Form.form_id f)
                        | _ => PNone
                        end)])
               201))
       (fun e =>
          if is_SQLAlchemyError e then
            rollback ;; raise save_500
          else raise e))
    close.

Section Decoders.

(** [json.loads] and [pd.read_excel(io.BytesIO(contents), engine='openpyxl')] *)
Variable json_loads : string -> res pyval.
Variable read_excel : string -> res DataFrame.

(** The [.json] branch of [upload_file]: the name and the fields of the
    payload, as they are. *)
Definition upload_json (contents : string) : res (pyval * pyval) :=
  let? data := json_loads contents in
  let? form_name := py_get data "formName" in
  let? fields := py_get data "fields" in
  if negb (truthy form_name) || negb (truthy fields) then
    inl (HTTPException 400 (Text "JSON must contain 'formName' and 'fields'."))
  else inr (form_name, fields).

(** The [.xlsx] branch of [upload_file]; [form_name] is the one set at the
    top of the handler. *)
Definition upload_xlsx (form_name : pyval) (contents : string) : res (pyval * pyval) :=
  match (let? df := read_excel contents in append_rows (iterrows df) []) with
  | inr fields => inr (form_name, PList fields)
  | inl e => inl (HTTPException 400 (Caused "Error parsing Excel file: " e))
  end.

(** The first half of [upload_file]: the check of the file name and the
    two branches, down to the name and the fields that are to be saved. *)
Definition read_form (file : UploadFile) : res (pyval * pyval) :=
  let form_name := PStr "" in
  let fields := PList [] in
  if negb (PyStr.endswith (filename file) ".json"
           || PyStr.endswith (filename file) ".xlsx")
  then inl (HTTPException 400
              (Text "Invalid file type. Please upload a JSON or Excel file."))
  else if PyStr.endswith (filename file) ".json" then upload_json (contents file)
  else if PyStr.endswith (filename file) ".xlsx"
       then upload_xlsx form_name (contents file)
       else inr (form_name, fields).

(** [POST /upload/] *)
Definition upload_file (file : UploadFile) (user_id : option Z) : M JSONResponse :=
  parsed <- lift (read_form file) ;;
  let '(form_name, fields) := parsed in
  save_form user_id form_name fields.

(** [GET /form/{form_id}] *)
Definition get_form (form_id : string) : M FormResponse.t :=
  get_db
    (try_except
       (form <- query_first forms (fun f => String.eqb (Form.form_id f) form_id) ;;
        match form with
        | None => raise (HTTPException 404 (Text "Form not found"))
        | Some form =>
            let fields_data := Form.fields form in
            (* Convert JSON string to a Python object if necessary *)
            fields_data <-
              match fields_data with
              | PStr s => lift (json_loads s)
              | _ => ret fields_data
              end ;;
            form_data <-
              lift (FormResponse_validate (Form.form_id form)
                      (PStr (Form.name form)) fields_data) ;;
            ret form_data
        end)
       (fun e =>
          if is_SQLAlchemyError e then
            raise (HTTPException 500 (Text "Error retrieving form data."))
          else raise e)).

End Decoders.

(** [POST /form/{formId}/submit] *)
Definition submit_form_response (formId : string) (response_data : ResponseData.t)
  : M pyval :=
  get_db
    (form <- query_first forms (fun f => String.eqb (Form.form_id f) formId) ;;
     match form with
     | None => raise (HTTPException 404 (Text "Form not found"))
     | Some form =>
         new_response <-
           add (IResponse (Response.mk None (Form.id form)
                             (PDict (ResponseData.data response_data)))) ;;
         commit ;;
         new_response <- refresh new_response ;;
         ret (PDict [("message", PStr "Response submitted successfully");
                     ("response_id", pk_val (instance_id new_response))])
     end).

(** [GET /form/{formId}/responses] *)
Definition get_form_responses (formId : string) : M pyval :=
  get_db
    (form <- query_first forms (fun f => String.eqb (Form.form_id f) formId) ;;
     match form with
     | None => raise (HTTPException 404 (Text "Form not found"))
     | Some form =>
         responses <-
           query_all responses
             (fun r =>
                match Response.form_id r, Form.id form with
                | Some a, Some b => (a =? b)%Z
                | _, _ => false
                end) ;;
         ret (PDict [("form_id", PStr (Form.form_id form));
                     ("responses", PList (map Response.data responses))])
     end).

(** the filter [Form.user_id == userId]: a form without owner matches no one *)
Definition owned_by (userId : Z) (f : Form.t) : bool :=
  match Form.user_id f with
  | Some u => (u =? userId)%Z
  | None => false
  end.

(** one entry of the list that [get_user_forms] returns *)
Definition form_entry (form : Form.t) : pyval :=
  PDict [("id", pk_val (Form.id form));
         ("name", PStr (Form.name form));
         ("form_id", PStr (Form.form_id form))].

(** [GET /user/{userId}/forms] *)
Definition get_user_forms (userId : Z) : M pyval :=
  get_db
    ((* Query to get forms for the specific user *)
     forms <- query_all forms (owned_by userId) ;;
     match forms with
     | [] => raise (HTTPException 404 (Text "No forms found for this user"))
     | _ =>
         ret (PDict [("userId", PInt userId);
                     ("forms", PList (map form_entry forms))])
     end).

(** [GET /user/{clerk_user_id}] *)
Definition get_user_id (clerk_user_id : string) : M pyval :=
  SessionLocal ;;
  try_finally
    (user <- query_first users
               (fun u => String.eqb (User.clerk_user_id u) clerk_user_id) ;;
     match user with
     | Some user => ret (PDict [("user_id", pk_val (User.id user))])
     | None => raise (HTTPException 404 (Text "User not found."))
     end)
    close.

(** The status line the client sees: an [HTTPException] carries its own
    code, any other exception that leaves a handler is a 500. *)
Definition http_status {A : Type} (ok : Z) (r : res A) : Z :=
  match r with
  | inr _ => ok
  | inl (HTTPException code _) => code
  | inl _ => 500
  end.

(** A request on a database: a fresh world, the handler, and what is left. *)
Definition run {A : Type} (h : M A) (en : env) (d : database) : res A * world :=
  h en (mkWorld d [] []).

Definition no_fault : db_op -> option sqlalchemy_error := fun _ => None.

(** The options of a choice field in the words of the specification: the
    value split on commas, each piece trimmed, the empty pieces discarded. *)
Definition options_spec (value : string) : list string :=
  filter PyStr.nonempty (map PyStr.strip (PyStr.split "," value)).

(** the [validation.required] entry of a descriptor *)
Definition required_of (d : pydict) : option bool :=
  match Dict.lookup d "validation" with
  | Some (PDict v) =>
      match Dict.lookup v "required" with
      | Some (PBool b) => Some b
      | _ => None
      end
  | _ => None
  end.

(** a row as a user would fill it in *)
Definition mk_row (label type required option : string) : Series :=
  [("Label", CStr label); ("Type", CStr type);
   ("Required", CStr required); ("Option", CStr option)].

(** The four types that the normaliser knows. *)
Definition recognized_types : list string :=
  ["Text"; "Checkbox"; "Dropdown"; "Multiple Choice"].

(** The entry of a structured payload under a key, [None] when the key is
    missing: what "missing or empty" means for the name and for the field
    sequence, and the shape the interface gives to the two entries. *)
Definition name_missing_or_empty (entry : option pyval) : Prop :=
  entry = None \/ entry = Some PNone \/ entry = Some (PStr "").

Definition fields_missing_or_empty (entry : option pyval) : Prop :=
  entry = None \/ entry = Some PNone \/ entry = Some (PList []).

Definition name_shaped (entry : option pyval) : Prop :=
  entry = None \/ entry = Some PNone \/ exists s, entry = Some (PStr s).

Definition fields_shaped (entry : option pyval) : Prop :=
  entry = None \/ entry = Some PNone \/ exists l, entry = Some (PList l).

Definition json_400 : exc :=
  HTTPException 400 (Text "JSON must contain 'formName' and 'fields'.").

(** The payload of the first end-to-end scenario. *)
Definition survey_fields : list pyval :=
  [PDict [("label", PStr "Name"); ("type", PStr "Text")]].

Definition survey_payload : pydict :=
  [("formName", PStr "Survey"); ("fields", PList survey_fields)].

(** Storage that fails at the commit, and nowhere else. *)
Definition commit_fails (e : sqlalchemy_error) : db_op -> option sqlalchemy_error :=
  fun op => match op with OpCommit => Some e | _ => None end.

(** Data of the end-to-end scenarios. *)
Definition empty_db : database := mkDatabase [] [] [].

Definition env0 : env := mkEnv "V1StGXR8_Z" no_fault.

Definition alice : UserCreate.t := UserCreate.mk "user_2abc" "alice@example.org".

Definition one_row_sheet : DataFrame :=
  mkDataFrame ["Label"; "Type"; "Required"]
    [[CStr "Name"; CStr "Text"; CStr "yes"]].

Definition empty_sheet : DataFrame :=
  mkDataFrame ["Label"; "Type"; "Required"; "Option"] [].

Definition no_json : string -> res pyval := fun _ => inl JSONDecodeError.

Definition no_excel : string -> res DataFrame := fun _ => inl (OtherError "BadZipFile").

(** a stored form, for the scenarios that need one *)
Definition survey_form : Form.t :=
  Form.mk (Some 1%Z) "V1StGXR8_Z" None "Survey" (PList survey_fields).

Definition survey_db : database := mkDatabase [] [survey_form] [].

(** An optional key of a descriptor: missing or null, or a value [v]. *)
Definition entry_is {A : Type} (inj : A -> pyval) (entry : option pyval)
    (a : option A) : Prop :=
  match a with
  | Some x => entry = Some (inj x)
  | None => entry = None \/ entry = Some PNone
  end.

(** The stored descriptor [v] and the [FormField] of a response say the
    same: label, type, options and validation agree, a missing or null key
    of the descriptor being [None] in the [FormField]. *)
Definition same_descriptor (v : pyval) (ff : FormField.t) : Prop :=
  exists kv,
    v = PDict kv /\
    Dict.lookup kv "label" = Some (PStr (FormField.label ff)) /\
    Dict.lookup kv "type" = Some (PStr (FormField.type ff)) /\
    entry_is (fun l => PList (map PStr l)) (Dict.lookup kv "options")
      (FormField.options ff) /\
    entry_is PDict (Dict.lookup kv "validation") (FormField.validation ff).

(** The shape [{label, type, options?, validation?}] of the interface. *)
Definition well_shaped (v : pyval) : Prop :=
  exists kv label type options validation,
    v = PDict kv /\
    Dict.lookup kv "label" = Some (PStr label) /\
    Dict.lookup kv "type" = Some (PStr type) /\
    entry_is (fun l => PList (map PStr l)) (Dict.lookup kv "options") options /\
    entry_is PDict (Dict.lookup kv "validation") validation.

(** a structured payload whose only descriptor has no type *)
Definition untyped_fields : list pyval := [PDict [("label", PStr "Name")]].

Definition untyped_payload : pydict :=
  [("formName", PStr "Survey"); ("fields", PList untyped_fields)].

(** A cell that says yes: the letters y, e, s, each in either case, with
    nothing but white space before and after. *)
Definition spells_yes (r : string) : Prop :=
  exists pre post y e s,
    r = (pre ++ String y (String e (String s post)))%string /\
    PyStr.all_space pre = true /\ PyStr.all_space post = true /\
    (y = "y"%char \/ y = "Y"%char) /\
    (e = "e"%char \/ e = "E"%char) /\
    (s = "s"%char \/ s = "S"%char).

Definition retrieve_500 : exc :=
  HTTPException 500 (Text "Error retrieving form data.").

Definition form_404 : exc := HTTPException 404 (Text "Form not found").

(** the filter [Response.form_id == form.id] *)
Definition response_of (form : Form.t) (r : Response.t) : bool :=
  match Response.form_id r, Form.id form with
  | Some a, Some b => (a =? b)%Z
  | _, _ => false
  end.

(** The values that Python takes for false in [if not v]. *)
Definition falsy (v : pyval) : Prop :=
  v = PNone \/ v = PBool false \/ v = PInt 0 \/
  (exists f, v = PFloat f /\ PrimFloat.eqb f 0%float = true) \/
  v = PStr "" \/ v = PList [] \/ v = PDict [].

(** a store with two forms *)
Definition other_form : Form.t :=
  Form.mk (Some 2%Z) "other_form" None "Other" (PList []).

Definition two_forms_db : database := mkDatabase [] [survey_form; other_form] [].

(** a sheet with an empty cell in the Required column of its second row *)
Definition nan_sheet : DataFrame :=
  mkDataFrame ["Label"; "Type"; "Required"]
    [[CStr "Name"; CStr "Text"; CStr "yes"];
     [CStr "Age"; CStr "Text"; CNaN]].

Definition is_open (ev : event) : bool :=
  match ev with EvOpen => true | _ => false end.

Definition is_close (ev : event) : bool :=
  match ev with EvClose => true | _ => false end.

(** A request has released its session: no object is left in it, and the
    calls on it, if there are any, begin with the one [SessionLocal()] and
    end with the one [close()]. *)
Definition session_released (w : world) : Prop :=
  session w = [] /\
  (log w = [] \/
   (hd_error (log w) = Some EvOpen /\
    last (log w) EvOpen = EvClose /\
    List.length (filter is_open (log w)) = 1%nat /\
    List.length (filter is_close (log w)) = 1%nat)).

(** Storage that fails at the refresh, after the commit. *)
Definition refresh_fails : db_op -> option sqlalchemy_error :=
  fun op => match op with OpRefresh => Some OperationalError | _ => None end.

(** a store with one user, whose key is 7 *)
Definition alice_user : User.t := User.mk (Some 7%Z) "user_2abc" "alice@example.org".

Definition alice_db : database := mkDatabase [alice_user] [] [].




(** a sheet with an empty cell in the Option column of a Dropdown row *)
Definition empty_option_sheet : DataFrame :=
  mkDataFrame ["Label"; "Type"; "Required"; "Option"]
    [[CStr "Size"; CStr "Dropdown"; CStr "no"; CNaN]].

(* ================================================================== *)
(** * Properties *)

(** ** The string functions on examples *)

Example strip_ex1 : PyStr.strip "  Multiple Choice " = "Multiple Choice".
Proof. reflexivity. Qed.

Example strip_ex2 : PyStr.strip (String "009" " a  b " ++ String "010" "") = "a  b".
Proof. reflexivity. Qed.

Example strip_ex3 : PyStr.strip "   " = "".
Proof. reflexivity. Qed.

Example split_ex1 : PyStr.split "," "A, B ,,C" = ["A"; " B "; ""; "C"].
Proof. reflexivity. Qed.

Example split_ex2 : PyStr.split "," "" = [""].
Proof. reflexivity. Qed.

Example lower_ex1 : PyStr.lower "YeS" = "yes".
Proof. reflexivity. Qed.

Example endswith_ex1 : PyStr.endswith "form.xlsx" ".xlsx" = true.
Proof. reflexivity. Qed.

Example endswith_ex2 : PyStr.endswith "xlsx" ".xlsx" = false.
Proof. reflexivity. Qed.

(** ** More on the string functions *)

Lemma split_not_nil (sep : ascii) (s : string) : PyStr.split sep s <> [].
Proof.
  induction s as [|c s IH]; simpl; [discriminate|].
  destruct (Ascii.eqb c sep); [discriminate|].
  destruct (PyStr.split sep s); [contradiction|discriminate].
Qed.

(** Splitting loses nothing: joining the pieces gives the string back. *)
Lemma join_split (sep : ascii) (s : string) :
  PyStr.join sep (PyStr.split sep s) = s.
Proof.
  induction s as [|c s IH]; simpl; [reflexivity|].
  destruct (Ascii.eqb_spec c sep) as [->|N].
  - pose proof (split_not_nil sep s) as Hn.
    destruct (PyStr.split sep s) as [|p ps]; [contradiction|].
    simpl in *. now rewrite IH.
  - pose proof (split_not_nil sep s) as Hn.
    destruct (PyStr.split sep s) as [|p ps]; [contradiction|].
    destruct ps as [|q qs]; simpl in *; now rewrite <- IH.
Qed.

Lemma split_no_sep (sep : ascii) (s : string) :
  Forall (fun piece => PyStr.contains sep piece = false) (PyStr.split sep s).
Proof.
  induction s as [|c s IH]; simpl.
  - constructor; [reflexivity|constructor].
  - destruct (Ascii.eqb c sep) eqn:E.
    + constructor; [reflexivity|exact IH].
    + destruct (PyStr.split sep s) as [|p ps].
      * constructor; [simpl; now rewrite E|constructor].
      * inversion IH; subst. constructor; [simpl; now rewrite E|assumption].
Qed.

Lemma lstrip_decomp (s : string) :
  exists pre, s = (pre ++ PyStr.lstrip s)%string /\ PyStr.all_space pre = true.
Proof.
  induction s as [|c s [pre [E H]]]; simpl.
  - now exists "".
  - destruct (PyStr.isspace c) eqn:Ec.
    + exists (String c pre). simpl. rewrite Ec, H. split; [now rewrite <- E|reflexivity].
    + now exists "".
Qed.

Lemma rstrip_all_space (s : string) :
  PyStr.all_space s = true -> PyStr.rstrip s = "".
Proof.
  induction s as [|c s IH]; simpl; [reflexivity|].
  intros H. apply andb_prop in H. destruct H as [Hc Hs].
  now rewrite (IH Hs), Hc.
Qed.

Lemma rstrip_decomp (s : string) :
  exists post, s = (PyStr.rstrip s ++ post)%string /\ PyStr.all_space post = true.
Proof.
  induction s as [|c s [post [E H]]]; simpl.
  - now exists "".
  - destruct (PyStr.rstrip s) as [|c' r] eqn:Er.
    + simpl in E. destruct (PyStr.isspace c) eqn:Ec.
      * exists (String c post). simpl. rewrite Ec, H. subst s.
        split; reflexivity.
      * exists post. subst s. split; [reflexivity | exact H].
    + exists post. split; [|exact H]. simpl in *. now rewrite <- E.
Qed.

Lemma lstrip_app_space (pre s : string) :
  PyStr.all_space pre = true -> PyStr.lstrip (pre ++ s)%string = PyStr.lstrip s.
Proof.
  induction pre as [|c pre IH]; simpl; [reflexivity|].
  intros H. apply andb_prop in H. destruct H as [Hc Hs]. rewrite Hc. now apply IH.
Qed.

Lemma rstrip_app_space (s post : string) :
  PyStr.all_space post = true -> PyStr.rstrip (s ++ post)%string = PyStr.rstrip s.
Proof.
  intros H. induction s as [|c s IH]; simpl.
  - now apply rstrip_all_space.
  - now rewrite IH.
Qed.

(** A string is its trimmed part between two runs of white space. *)
Lemma strip_decomp (s : string) :
  exists pre post,
    s = (pre ++ PyStr.strip s ++ post)%string /\
    PyStr.all_space pre = true /\ PyStr.all_space post = true.
Proof.
  destruct (lstrip_decomp s) as [pre [E1 H1]].
  destruct (rstrip_decomp (PyStr.lstrip s)) as [post [E2 H2]].
  exists pre, post. unfold PyStr.strip. now rewrite <- E2, <- E1.
Qed.

Lemma lower_char_y (c : ascii) :
  PyStr.lower_char c = "y"%char <-> c = "y"%char \/ c = "Y"%char.
Proof.
  split.
  - destruct c as [[] [] [] [] [] [] [] []]; vm_compute; intros H;
      try discriminate H; auto.
  - intros [-> | ->]; reflexivity.
Qed.

Lemma lower_char_e (c : ascii) :
  PyStr.lower_char c = "e"%char <-> c = "e"%char \/ c = "E"%char.
Proof.
  split.
  - destruct c as [[] [] [] [] [] [] [] []]; vm_compute; intros H;
      try discriminate H; auto.
  - intros [-> | ->]; reflexivity.
Qed.

Lemma lower_char_s (c : ascii) :
  PyStr.lower_char c = "s"%char <-> c = "s"%char \/ c = "S"%char.
Proof.
  split.
  - destruct c as [[] [] [] [] [] [] [] []]; vm_compute; intros H;
      try discriminate H; auto.
  - intros [-> | ->]; reflexivity.
Qed.

(** The cells that count as "yes": the three letters, each in either case,
    between two runs of white space. *)
Lemma lower_strip_yes_iff (r : string) :
  PyStr.lower (PyStr.strip r) = "yes" <-> spells_yes r.
Proof.
  unfold spells_yes. split.
  - intros H.
    destruct (strip_decomp r) as (pre & post & E & Hpre & Hpost).
    destruct (PyStr.strip r) as [|y [|e [|s [|x t]]]]; simpl in H; try discriminate H.
    injection H as Hy He Hs.
    exists pre, post, y, e, s. simpl in E.
    split; [exact E|]. split; [exact Hpre|]. split; [exact Hpost|].
    split; [now apply lower_char_y|].
    split; [now apply lower_char_e | now apply lower_char_s].
  - intros (pre & post & y & e & s & -> & Hpre & Hpost & Hy & He & Hs).
    unfold PyStr.strip. rewrite (lstrip_app_space _ _ Hpre).
    assert (L : forall t, PyStr.lstrip (String y t) = String y t).
    { intros t. destruct Hy as [-> | ->]; reflexivity. }
    rewrite L.
    change (String y (String e (String s post)))
      with (String y (String e (String s "")) ++ post)%string.
    rewrite (rstrip_app_space _ _ Hpost).
    destruct Hy as [-> | ->]; destruct He as [-> | ->]; destruct Hs as [-> | ->];
      reflexivity.
Qed.

Lemma lstrip_head (s : string) :
  PyStr.lstrip s = "" \/
  exists c t, PyStr.lstrip s = String c t /\ PyStr.isspace c = false.
Proof.
  induction s as [|c s IH]; simpl; [now left|].
  destruct (PyStr.isspace c) eqn:Ec; [exact IH|].
  right. now exists c, s.
Qed.

Lemma rstrip_head (c : ascii) (s : string) :
  PyStr.isspace c = false -> exists t, PyStr.rstrip (String c s) = String c t.
Proof.
  intros Hc. simpl. destruct (PyStr.rstrip s) as [|c' r].
  - rewrite Hc. now exists "".
  - now exists (String c' r).
Qed.

Lemma rstrip_idem (s : string) : PyStr.rstrip (PyStr.rstrip s) = PyStr.rstrip s.
Proof.
  induction s as [|c s IH]; simpl; [reflexivity|].
  destruct (PyStr.rstrip s) as [|c' r] eqn:Er.
  - destruct (PyStr.isspace c) eqn:Ec; simpl; [reflexivity|]. now rewrite Ec.
  - simpl in *. now rewrite IH.
Qed.

(** Trimming twice is trimming once: a trimmed piece has no white space at
    either end. *)
Lemma strip_idem (s : string) : PyStr.strip (PyStr.strip s) = PyStr.strip s.
Proof.
  unfold PyStr.strip.
  destruct (lstrip_head s) as [E | (c & t & E & Hc)]; rewrite E.
  - reflexivity.
  - destruct (rstrip_head c t Hc) as [t' Et]. rewrite Et.
    assert (L : PyStr.lstrip (String c t') = String c t') by (simpl; now rewrite Hc).
    rewrite L, <- Et. apply rstrip_idem.
Qed.

Lemma contains_app (sep : ascii) (a b : string) :
  PyStr.contains sep (a ++ b)%string
  = PyStr.contains sep a || PyStr.contains sep b.
Proof.
  induction a as [|c a IH]; simpl; [reflexivity|].
  now rewrite IH, orb_assoc.
Qed.

Lemma contains_strip (sep : ascii) (s : string) :
  PyStr.contains sep s = false -> PyStr.contains sep (PyStr.strip s) = false.
Proof.
  destruct (strip_decomp s) as (pre & post & E & _ & _).
  intros H. rewrite E in H. rewrite !contains_app in H.
  apply orb_false_iff in H. destruct H as [_ H].
  apply orb_false_iff in H. tauto.
Qed.

(** The options of a choice field: every one is a piece of the cell between
    two commas, trimmed, not empty and without a comma. *)
Lemma options_spec_pieces (value : string) :
  Forall (fun option =>
            PyStr.nonempty option = true /\
            PyStr.strip option = option /\
            PyStr.contains "," option = false /\
            exists piece, In piece (PyStr.split "," value) /\
                          option = PyStr.strip piece)
    (options_spec value).
Proof.
  unfold options_spec. apply Forall_forall. intros o Ho.
  apply filter_In in Ho. destruct Ho as [Hin Hne].
  apply in_map_iff in Hin. destruct Hin as [piece [<- Hp]].
  split; [exact Hne|]. split; [apply strip_idem|]. split.
  - apply contains_strip.
    exact (proj1 (Forall_forall _ _) (split_no_sep "," value) piece Hp).
  - now exists piece.
Qed.

(** ** The normaliser of spreadsheet rows *)

Lemma strip_nonempty_spec (pieces : list string) :
  strip_nonempty pieces = filter PyStr.nonempty (map PyStr.strip pieces).
Proof.
  unfold strip_nonempty.
  induction pieces as [|p ps IH]; simpl; [reflexivity|].
  destruct (PyStr.nonempty (PyStr.strip p)); simpl; now rewrite IH.
Qed.

(** What [field_json_of_row] returns, case by case. *)
Lemma field_json_of_row_inv (row : Series) (d : pydict) :
  field_json_of_row row = inr d ->
  exists l t r,
    Series_get row "Label" (CStr "") = CStr l /\
    Series_get row "Type" (CStr "") = CStr t /\
    Series_get row "Required" (CStr "") = CStr r /\
    let base :=
      [ ("label", PStr (PyStr.strip l));
        ("type", PStr (PyStr.strip t));
        ("validation",
         PDict [("required",
                 PBool (String.eqb (PyStr.lower (PyStr.strip r)) "yes"))]) ] in
    (PyStr.in_list (PyStr.strip t) ["Dropdown"; "Multiple Choice"] = true /\
     exists o,
       Series_get row "Option" (CStr "") = CStr o /\
       d = base ++ [("options",
                     PList (map PStr (strip_nonempty (PyStr.split "," o))))])
    \/
    (PyStr.in_list (PyStr.strip t) ["Dropdown"; "Multiple Choice"] = false /\
     d = base).
Proof.
  unfold field_json_of_row.
  destruct (Series_get row "Label" (CStr "")) as [l| | | |]; simpl; try discriminate.
  destruct (Series_get row "Type" (CStr "")) as [t| | | |]; simpl; try discriminate.
  destruct (Series_get row "Required" (CStr "")) as [r| | | |]; simpl; try discriminate.
  intros H. exists l, t, r. repeat split.
  unfold PyStr.in_list in *. simpl in *.
  destruct (String.eqb_spec (PyStr.strip t) "Dropdown") as [E1|N1].
  - rewrite E1 in *. simpl in *. left. split; [reflexivity|].
    destruct (Series_get row "Option" (CStr "")) as [o| | | |]; simpl in H;
      try discriminate.
    exists o. split; [reflexivity|]. now inversion H.
  - destruct (String.eqb_spec (PyStr.strip t) "Multiple Choice") as [E2|N2].
    + rewrite E2 in *. simpl in *. left. split; [reflexivity|].
      destruct (Series_get row "Option" (CStr "")) as [o| | | |]; simpl in H;
        try discriminate.
      exists o. split; [reflexivity|]. now inversion H.
    + simpl in *. right. split; [reflexivity|].
      destruct (String.eqb (PyStr.strip t) "Text" || (String.eqb (PyStr.strip t) "Checkbox" || false));
        simpl in H; now inversion H.
Qed.

(** A row whose cells are text always gives a descriptor. *)
Lemma field_json_of_row_total (row : Series) (l t r o : string) :
  Series_get row "Label" (CStr "") = CStr l ->
  Series_get row "Type" (CStr "") = CStr t ->
  Series_get row "Required" (CStr "") = CStr r ->
  Series_get row "Option" (CStr "") = CStr o ->
  exists d, field_json_of_row row = inr d.
Proof.
  intros Hl Ht Hr Ho. unfold field_json_of_row.
  rewrite Hl, Ht, Hr, Ho. simpl.
  destruct (PyStr.in_list (PyStr.strip t) ["Dropdown"; "Multiple Choice"]);
    simpl; eexists; reflexivity.
Qed.

(** An empty cell, which pandas reads as NaN, in a column that the loop
    reads makes the row raise. *)
Lemma field_json_of_row_nan_label (row : Series) :
  Series_get row "Label" (CStr "") = CNaN ->
  field_json_of_row row = inl (AttributeError "strip").
Proof. intros H. unfold field_json_of_row. now rewrite H. Qed.

Lemma choice_type_not_plain (t : string) :
  t = "Dropdown" \/ t = "Multiple Choice" ->
  PyStr.in_list t ["Dropdown"; "Multiple Choice"] = true /\
  PyStr.in_list t ["Text"; "Checkbox"] = false.
Proof. intros [-> | ->]; split; reflexivity. Qed.

Lemma plain_type_not_choice (t : string) :
  t = "Text" \/ t = "Checkbox" ->
  PyStr.in_list t ["Dropdown"; "Multiple Choice"] = false /\
  PyStr.in_list t ["Text"; "Checkbox"] = true.
Proof. intros [-> | ->]; split; reflexivity. Qed.

Lemma in_list_false_iff (t : string) (l : list string) :
  PyStr.in_list t l = false <-> ~ In t l.
Proof.
  unfold PyStr.in_list. induction l as [|x xs IH]; simpl.
  - tauto.
  - rewrite orb_false_iff, IH, String.eqb_neq. intuition congruence.
Qed.

(** C4, as the code has it. For a row whose cells are text (a cell of a
    column that the sheet does not have counts as the empty text) and whose
    trimmed Type is "Dropdown" or "Multiple Choice", the descriptor has the
    key [options], and its value is the Option cell split on commas, every
    piece trimmed, the empty pieces dropped, in the order of the cell; an
    Option column that is missing or gives no piece leaves the key present
    with the empty list. *)
Theorem choice_row_options (row : Series) (l t r o : string) :
  Series_get row "Label" (CStr "") = CStr l ->
  Series_get row "Type" (CStr "") = CStr t ->
  Series_get row "Required" (CStr "") = CStr r ->
  Series_get row "Option" (CStr "") = CStr o ->
  PyStr.strip t = "Dropdown" \/ PyStr.strip t = "Multiple Choice" ->
  exists d,
    field_json_of_row row = inr d /\
    Dict.lookup d "options" = Some (PList (map PStr (options_spec o))) /\
    (options_spec o = [] -> Dict.lookup d "options" = Some (PList [])).
Proof.
  intros Hl Ht Hr Ho Hty.
  destruct (choice_type_not_plain _ Hty) as [Hc Hp].
  unfold field_json_of_row. rewrite Hl, Ht, Hr, Ho. simpl.
  rewrite Hc, Hp. simpl.
  eexists. split; [reflexivity|].
  unfold options_spec. rewrite <- strip_nonempty_spec.
  split; [reflexivity|]. intros E. simpl. now rewrite E.
Qed.

Lemma choice_row_options_witness :
  exists d,
    field_json_of_row (mk_row "Size" " Dropdown" "no" "A, B ,,C") = inr d /\
    Dict.lookup d "options" = Some (PList [PStr "A"; PStr "B"; PStr "C"]).
Proof.
  destruct (choice_row_options (mk_row "Size" " Dropdown" "no" "A, B ,,C")
              "Size" " Dropdown" "no" "A, B ,,C"
              eq_refl eq_refl eq_refl eq_refl (or_introl eq_refl))
    as [d [Hd [Ho _]]].
  exists d. split; [exact Hd | exact Ho].
Defined.

(** C4, as it is worded, fails: the Option cell of the Dropdown row below is
    empty, which pandas reads as NaN and not as a text. The row gives no
    descriptor with an empty list of options: it raises, and the upload of
    its sheet is answered with a 400. *)
Lemma choice_row_empty_option_cell :
  let row := [("Label", CStr "Size"); ("Type", CStr "Dropdown");
              ("Required", CStr "no"); ("Option", CNaN)] in
  iterrows empty_option_sheet = [row] /\
  PyStr.strip "Dropdown" = "Dropdown" /\
  Series_get row "Option" (CStr "") = CNaN /\
  field_json_of_row row = inl (AttributeError "split") /\
  (forall d, field_json_of_row row <> inr d) /\
  upload_xlsx (fun _ => inr empty_option_sheet) (PStr "") "PK.."
  = inl (HTTPException 400
           (Caused "Error parsing Excel file: " (AttributeError "split"))).
Proof.
  cbv zeta. repeat split. intros d H. vm_compute in H. discriminate H.
Qed.

(** The example of the specification, for both choice types, and the rows
    without any option. *)
Example options_example_dropdown :
  field_json_of_row (mk_row "Size" "Dropdown" "no" "A, B ,,C")
  = inr [ ("label", PStr "Size"); ("type", PStr "Dropdown");
          ("validation", PDict [("required", PBool false)]);
          ("options", PList [PStr "A"; PStr "B"; PStr "C"]) ].
Proof. reflexivity. Qed.

Example options_example_multiple_choice :
  field_json_of_row (mk_row "Size" "Multiple Choice" "no" "A, B ,,C")
  = inr [ ("label", PStr "Size"); ("type", PStr "Multiple Choice");
          ("validation", PDict [("required", PBool false)]);
          ("options", PList [PStr "A"; PStr "B"; PStr "C"]) ].
Proof. reflexivity. Qed.

Example options_example_empty :
  field_json_of_row [("Label", CStr "Size"); ("Type", CStr "Dropdown")]
  = inr [ ("label", PStr "Size"); ("type", PStr "Dropdown");
          ("validation", PDict [("required", PBool false)]);
          ("options", PList []) ].
Proof. reflexivity. Qed.

Example scenario_2 :
  field_json_of_row (mk_row "Color" "Dropdown" "yes" "Red, Green, Blue")
  = inr [ ("label", PStr "Color"); ("type", PStr "Dropdown");
          ("validation", PDict [("required", PBool true)]);
          ("options", PList [PStr "Red"; PStr "Green"; PStr "Blue"]) ].
Proof. reflexivity. Qed.

(** C5. For a row whose trimmed Type is "Text" or "Checkbox" the descriptor
    has no key [options], whatever the Option cell of the row holds (it is
    not even read). *)
Theorem plain_row_no_options (row : Series) (l t r : string) :
  Series_get row "Label" (CStr "") = CStr l ->
  Series_get row "Type" (CStr "") = CStr t ->
  Series_get row "Required" (CStr "") = CStr r ->
  PyStr.strip t = "Text" \/ PyStr.strip t = "Checkbox" ->
  exists d,
    field_json_of_row row = inr d /\
    Dict.lookup d "options" = None /\
    Dict.mem d "options" = false /\
    map fst d = ["label"; "type"; "validation"].
Proof.
  intros Hl Ht Hr Hty.
  destruct (plain_type_not_choice _ Hty) as [Hc Hp].
  unfold field_json_of_row. rewrite Hl, Ht, Hr. simpl.
  rewrite Hc, Hp. simpl.
  eexists. split; [reflexivity|]. repeat split.
Qed.

Lemma plain_row_no_options_witness :
  exists d,
    field_json_of_row (mk_row "Agree" "Checkbox " "Yes" "x, y") = inr d /\
    Dict.lookup d "options" = None.
Proof.
  destruct (plain_row_no_options (mk_row "Agree" "Checkbox " "Yes" "x, y")
              "Agree" "Checkbox " "Yes" eq_refl eq_refl eq_refl
              (or_intror eq_refl))
    as [d [Hd [Ho _]]].
  exists d. split; [exact Hd | exact Ho].
Defined.

Example plain_row_nan_option :
  field_json_of_row
    [("Label", CStr "Name"); ("Type", CStr "Text"); ("Required", CStr "yes");
     ("Option", CNaN)]
  = inr [ ("label", PStr "Name"); ("type", PStr "Text");
          ("validation", PDict [("required", PBool true)]) ].
Proof. reflexivity. Qed.

(** C3, as the code has it. For a row whose trimmed Type is none of the four
    recognised types the descriptor has no key [options], whether the Option
    cell is empty, missing or filled: options are added for "Dropdown" and
    "Multiple Choice" only. *)
Theorem other_row_no_options (row : Series) (l t r : string) :
  Series_get row "Label" (CStr "") = CStr l ->
  Series_get row "Type" (CStr "") = CStr t ->
  Series_get row "Required" (CStr "") = CStr r ->
  ~ In (PyStr.strip t) recognized_types ->
  exists d,
    field_json_of_row row = inr d /\
    Dict.lookup d "options" = None /\
    Dict.mem d "options" = false /\
    map fst d = ["label"; "type"; "validation"].
Proof.
  intros Hl Ht Hr Hty.
  assert (Hc : PyStr.in_list (PyStr.strip t) ["Dropdown"; "Multiple Choice"] = false).
  { apply in_list_false_iff. intros Hin. apply Hty.
    unfold recognized_types. simpl in *. tauto. }
  assert (Hp : PyStr.in_list (PyStr.strip t) ["Text"; "Checkbox"] = false).
  { apply in_list_false_iff. intros Hin. apply Hty.
    unfold recognized_types. simpl in *. tauto. }
  unfold field_json_of_row. rewrite Hl, Ht, Hr. simpl.
  rewrite Hc, Hp. simpl.
  eexists. split; [reflexivity|]. repeat split.
Qed.

Lemma recognized_types_Rating : ~ In (PyStr.strip "Rating") recognized_types.
Proof.
  vm_compute. intros [H|[H|[H|[H|[]]]]]; discriminate H.
Qed.

Lemma other_row_no_options_witness :
  exists d,
    field_json_of_row (mk_row "Score" "Rating" "no" "1,2,3") = inr d /\
    Dict.lookup d "options" = None.
Proof.
  destruct (other_row_no_options (mk_row "Score" "Rating" "no" "1,2,3")
              "Score" "Rating" "no" eq_refl eq_refl eq_refl
              recognized_types_Rating)
    as [d [Hd [Ho _]]].
  exists d. split; [exact Hd | exact Ho].
Defined.

(** C3, as the specification words it, fails: the row below has a type that
    is not recognised and an Option cell with content, and nothing of that
    content reaches the descriptor. *)
Lemma other_row_option_content_dropped :
  let row := mk_row "Score" "Rating" "no" "1,2,3" in
  ~ In (PyStr.strip "Rating") recognized_types /\
  Series_get row "Type" (CStr "") = CStr "Rating" /\
  Series_get row "Option" (CStr "") = CStr "1,2,3" /\
  field_json_of_row row
  = inr [ ("label", PStr "Score"); ("type", PStr "Rating");
          ("validation", PDict [("required", PBool false)]) ] /\
  (forall d, field_json_of_row row = inr d -> Dict.mem d "options" = false).
Proof.
  cbv zeta. split; [exact recognized_types_Rating|].
  repeat split. intros d H. vm_compute in H. inversion H. reflexivity.
Qed.

Lemma Series_get_absent (row : Series) (key : string) (default : cell) :
  ~ In key (map fst row) -> Series_get row key default = default.
Proof.
  induction row as [|[k c] row IH]; simpl; intros H; [reflexivity|].
  destruct (String.eqb_spec key k) as [->|N]; [tauto|]. apply IH. tauto.
Qed.

(** C6, as the code has it. The descriptor that a row yields has
    [validation.required] true exactly when the Required cell, a text,
    trimmed and in lower case, is "yes", that is when the cell spells yes in
    any mix of cases between white space; any other text, and a sheet
    without a Required column, give false. *)
Theorem required_iff_yes (row : Series) (d : pydict) :
  field_json_of_row row = inr d ->
  exists r,
    Series_get row "Required" (CStr "") = CStr r /\
    required_of d = Some (String.eqb (PyStr.lower (PyStr.strip r)) "yes") /\
    (required_of d = Some true <-> PyStr.lower (PyStr.strip r) = "yes") /\
    (required_of d = Some false <-> PyStr.lower (PyStr.strip r) <> "yes") /\
    (required_of d = Some true <-> spells_yes r) /\
    (~ In "Required" (map fst row) -> required_of d = Some false).
Proof.
  intros H.
  destruct (field_json_of_row_inv _ _ H) as (l & t & r & Hl & Ht & Hr & Hd).
  exists r. split; [exact Hr|].
  assert (E : required_of d
              = Some (String.eqb (PyStr.lower (PyStr.strip r)) "yes")).
  { cbv zeta in Hd. destruct Hd as [[_ [o [_ ->]]] | [_ ->]]; reflexivity. }
  rewrite E. split; [reflexivity|].
  destruct (String.eqb_spec (PyStr.lower (PyStr.strip r)) "yes") as [Y|N].
  - split; [split; auto|].
    split; [split; [intros Hc; discriminate Hc | intros Hn; contradiction]|].
    split; [split; [intros _; now apply lower_strip_yes_iff | reflexivity]|].
    intros Habs. rewrite (Series_get_absent _ _ _ Habs) in Hr.
    inversion Hr; subst r. discriminate Y.
  - split; [split; [intros Hc; discriminate Hc | intros Hy; contradiction]|].
    split; [split; auto|].
    split; [|reflexivity].
    split; [intros Hc; discriminate Hc|].
    intros Hy. apply lower_strip_yes_iff in Hy. contradiction.
Qed.

Lemma required_iff_yes_witness :
  exists r,
    Series_get (mk_row "Color" "Dropdown" " YES " "Red") "Required" (CStr "")
    = CStr r /\
    required_of [ ("label", PStr "Color"); ("type", PStr "Dropdown");
                  ("validation", PDict [("required", PBool true)]);
                  ("options", PList [PStr "Red"]) ]
    = Some (String.eqb (PyStr.lower (PyStr.strip r)) "yes").
Proof.
  destruct (required_iff_yes (mk_row "Color" "Dropdown" " YES " "Red") _ eq_refl)
    as [r [Hr [Hd _]]].
  exists r. split; [exact Hr | exact Hd].
Defined.

(** C6, as it is worded, fails: a Required cell that is not a text, here
    the empty cell that pandas reads as NaN, a number and a boolean, does
    not give [required] false. Each of the rows raises, so there is no
    descriptor, and the upload of a sheet with such a row is answered with a
    400. *)
Lemma required_cell_not_text :
  let row (c : cell) := [("Label", CStr "Age"); ("Type", CStr "Text");
                         ("Required", c)] in
  field_json_of_row (row CNaN) = inl (AttributeError "strip") /\
  field_json_of_row (row (CInt 1)) = inl (AttributeError "strip") /\
  field_json_of_row (row (CBool false)) = inl (AttributeError "strip") /\
  (forall d, field_json_of_row (row CNaN) <> inr d) /\
  In (row CNaN) (iterrows nan_sheet) /\
  upload_xlsx (fun _ => inr nan_sheet) (PStr "") "PK.."
  = inl (HTTPException 400
           (Caused "Error parsing Excel file: " (AttributeError "strip"))).
Proof.
  cbv zeta. repeat split.
  - intros d H. vm_compute in H. discriminate H.
  - right. now left.
Qed.

(** The spellings that the specification lists, and some that give false. *)
Example required_examples :
  map (fun r => let? d := field_json_of_row (mk_row "Name" "Text" r "") in
                inr (required_of d))
      ["Yes"; "yes"; "YES"; " yEs  "; "no"; ""; "y"; "yes!"; "true"]
  = map (fun b => inr (Some b))
      [true; true; true; true; false; false; false; false; false].
Proof. reflexivity. Qed.

Example required_absent :
  (let? d := field_json_of_row [("Label", CStr "Name"); ("Type", CStr "Text")] in
   inr (required_of d)) = inr (Some false).
Proof. reflexivity. Qed.

(** ** The structured payload *)

Lemma truthy_name_entry (entry : option pyval) :
  name_shaped entry ->
  (truthy (match entry with Some v => v | None => PNone end) = false
   <-> name_missing_or_empty entry).
Proof.
  unfold name_shaped, name_missing_or_empty.
  intros [-> | [-> | [s ->]]]; simpl.
  - tauto.
  - tauto.
  - destruct s as [|c s]; simpl; split.
    + intros _. right. right. reflexivity.
    + reflexivity.
    + intros H; discriminate H.
    + intros [H | [H | H]]; discriminate H.
Qed.

Lemma truthy_fields_entry (entry : option pyval) :
  fields_shaped entry ->
  (truthy (match entry with Some v => v | None => PNone end) = false
   <-> fields_missing_or_empty entry).
Proof.
  unfold fields_shaped, fields_missing_or_empty.
  intros [-> | [-> | [l ->]]]; simpl.
  - tauto.
  - tauto.
  - destruct l as [|v l]; simpl; split.
    + intros _. right. right. reflexivity.
    + reflexivity.
    + intros H; discriminate H.
    + intros [H | [H | H]]; discriminate H.
Qed.

(** On a mapping, the branch either raises the 400 or hands back the two
    entries as they are; which one is decided by their truth values. *)
Lemma upload_json_dict (json_loads : string -> res pyval) (contents : string)
    (kv : pydict) :
  json_loads contents = inr (PDict kv) ->
  let form_name := match Dict.lookup kv "formName" with Some v => v | None => PNone end in
  let fields := match Dict.lookup kv "fields" with Some v => v | None => PNone end in
  upload_json json_loads contents
  = if truthy form_name && truthy fields then inr (form_name, fields)
    else inl json_400.
Proof.
  intros H. unfold upload_json. rewrite H. simpl.
  destruct (Dict.lookup kv "formName") as [n|];
    destruct (Dict.lookup kv "fields") as [f|]; simpl;
    try destruct (truthy n); try destruct (truthy f); reflexivity.
Qed.

(** C7. A structured payload, that is a mapping whose name, if given, is a
    string and whose fields, if given, are a sequence, is rejected with the
    400 "JSON must contain 'formName' and 'fields'." exactly when the name
    or the field sequence is missing or empty; otherwise the name and the
    fields come back as they are in the payload, the same list in the same
    order. *)
Theorem structured_payload_validation
    (json_loads : string -> res pyval) (contents : string) (kv : pydict) :
  json_loads contents = inr (PDict kv) ->
  name_shaped (Dict.lookup kv "formName") ->
  fields_shaped (Dict.lookup kv "fields") ->
  (upload_json json_loads contents = inl json_400
   <-> name_missing_or_empty (Dict.lookup kv "formName")
       \/ fields_missing_or_empty (Dict.lookup kv "fields"))
  /\
  (forall s l,
     Dict.lookup kv "formName" = Some (PStr s) -> s <> "" ->
     Dict.lookup kv "fields" = Some (PList l) -> l <> [] ->
     upload_json json_loads contents = inr (PStr s, PList l))
  /\
  (forall e, upload_json json_loads contents = inl e -> e = json_400).
Proof.
  intros Hj Hn Hf.
  pose proof (upload_json_dict json_loads contents kv Hj) as E. cbv zeta in E.
  pose proof (truthy_name_entry _ Hn) as Tn.
  pose proof (truthy_fields_entry _ Hf) as Tf.
  rewrite E. clear E. split; [|split].
  - destruct (truthy match Dict.lookup kv "formName" with
                     | Some v => v | None => PNone end);
      destruct (truthy match Dict.lookup kv "fields" with
                       | Some v => v | None => PNone end); simpl; split;
      try (intros H; discriminate H); try tauto.
    intros [H|H]; [apply Tn in H | apply Tf in H]; discriminate H.
  - intros s l Hs Hne Hl Hle. rewrite Hs, Hl.
    destruct s; [congruence|]. destruct l; [congruence|]. reflexivity.
  - intros e.
    destruct (truthy match Dict.lookup kv "formName" with
                     | Some v => v | None => PNone end && _);
      intros H; inversion H; reflexivity.
Qed.

Lemma structured_payload_validation_witness :
  upload_json (fun _ => inr (PDict survey_payload)) "{...}"
  = inr (PStr "Survey", PList survey_fields).
Proof.
  apply (proj1 (proj2 (structured_payload_validation
                         (fun _ => inr (PDict survey_payload)) "{...}"
                         survey_payload eq_refl
                         (or_intror (or_intror (ex_intro _ "Survey" eq_refl)))
                         (or_intror (or_intror (ex_intro _ survey_fields eq_refl)))))
           "Survey" survey_fields);
    [reflexivity | discriminate | reflexivity | discriminate].
Defined.

(** Payloads that are rejected, and what happens outside the interface: a
    JSON document that is not a mapping has no [get]. *)
Example structured_rejected :
  map (fun payload => upload_json (fun _ => inr (PDict payload)) "")
    [ [];
      [("formName", PStr "Survey")];
      [("formName", PStr ""); ("fields", PList [PDict []])];
      [("formName", PStr "Survey"); ("fields", PList [])];
      [("formName", PNone); ("fields", PList [PDict []])] ]
  = [inl json_400; inl json_400; inl json_400; inl json_400; inl json_400].
Proof. reflexivity. Qed.

Example structured_not_a_mapping :
  upload_json (fun _ => inr (PList [])) "[]" = inl (AttributeError "get").
Proof. reflexivity. Qed.

(** ** Sessions *)

Lemma find_none_iff {A : Type} (p : A -> bool) (l : list A) :
  find p l = None <-> forall x, In x l -> p x = false.
Proof.
  split.
  - intros H x Hx. exact (find_none p l H x Hx).
  - induction l as [|a l IH]; simpl; intros H; [reflexivity|].
    rewrite (H a (or_introl eq_refl)). apply IH. intros x Hx. apply H. now right.
Qed.

Lemma find_form_some (formId : string) (l : list Form.t) (form : Form.t) :
  find (fun f => String.eqb (Form.form_id f) formId) l = Some form ->
  In form l /\ Form.form_id form = formId.
Proof.
  intros H. apply find_some in H. destruct H as [Hin He].
  split; [exact Hin|]. now apply String.eqb_eq.
Qed.

Lemma references_In {A : Type} (pk : A -> option Z) (rows : list A) (r : A) :
  In r rows -> references pk rows (pk r) = true.
Proof.
  intros Hin. unfold references. destruct (pk r) as [k|] eqn:Ek; [|reflexivity].
  apply existsb_exists. exists r. split; [exact Hin|].
  rewrite Ek. apply Z.eqb_refl.
Qed.

(** ** Submitting a response *)

(** What [submit_form_response] does, by the three points at which the
    storage can fail. *)
Lemma submit_form_response_run (formId : string) (rd : ResponseData.t)
    (en : env) (d : database) :
  run (submit_form_response formId rd) en d =
  match fault en OpQuery with
  | Some e => (inl (SAError e), mkWorld d [] [EvOpen; EvQuery; EvClose])
  | None =>
      match find (fun f => String.eqb (Form.form_id f) formId) (forms d) with
      | None =>
          (inl (HTTPException 404 (Text "Form not found")),
           mkWorld d [] [EvOpen; EvQuery; EvClose])
      | Some form =>
          match fault en OpCommit with
          | Some e =>
              (inl (SAError e),
               mkWorld d [] [EvOpen; EvQuery; EvAdd; EvCommit; EvClose])
          | None =>
              let r := Response.mk (Some (fresh_pk Response.id (responses d)))
                         (Form.id form) (PDict (ResponseData.data rd)) in
              let d' := mkDatabase (users d) (forms d) (responses d ++ [r]) in
              match fault en OpRefresh with
              | Some e =>
                  (inl (SAError e),
                   mkWorld d' []
                     [EvOpen; EvQuery; EvAdd; EvCommit; EvRefresh; EvClose])
              | None =>
                  (inr (PDict [("message", PStr "Response submitted successfully");
                               ("response_id",
                                PInt (fresh_pk Response.id (responses d)))]),
                   mkWorld d' []
                     [EvOpen; EvQuery; EvAdd; EvCommit; EvRefresh; EvClose])
              end
          end
      end
  end.
Proof.
  unfold run, submit_form_response, get_db, try_finally, bind, SessionLocal,
    query_first, record. simpl.
  destruct (fault en OpQuery) as [e|]; [reflexivity|].
  destruct (find _ (forms d)) as [form|] eqn:Ef; [|reflexivity].
  apply find_form_some in Ef. destruct Ef as [Hin _].
  unfold add, commit, refresh, close, raise, ret, record. simpl.
  destruct (fault en OpCommit) as [e|]; [reflexivity|]. simpl.
  rewrite (references_In Form.id (forms d) form Hin). simpl.
  destruct (fault en OpRefresh) as [e|]; reflexivity.
Qed.

(** C8. A response for a form identifier that no stored form has is answered
    with the 404 "Form not found" and leaves the store as it was; and
    whatever the outcome of a submission, the store either is unchanged or
    has gained exactly one response, which carries the key of a stored form
    with that identifier. *)
Theorem submit_references_existing_form (formId : string) (rd : ResponseData.t)
    (en : env) (d : database) :
  (fault en OpQuery = None ->
   (forall f, In f (forms d) -> Form.form_id f <> formId) ->
   exists w',
     run (submit_form_response formId rd) en d
     = (inl (HTTPException 404 (Text "Form not found")), w') /\
     db w' = d)
  /\
  (forall out w',
     run (submit_form_response formId rd) en d = (out, w') ->
     db w' = d \/
     exists form r,
       In form (forms d) /\ Form.form_id form = formId /\
       Response.form_id r = Form.id form /\
       Response.data r = PDict (ResponseData.data rd) /\
       db w' = mkDatabase (users d) (forms d) (responses d ++ [r])).
Proof.
  rewrite submit_form_response_run. split.
  - intros Hq Hno. rewrite Hq.
    assert (E : find (fun f => String.eqb (Form.form_id f) formId) (forms d) = None).
    { apply find_none_iff. intros f Hf. apply String.eqb_neq. now apply Hno. }
    rewrite E. eexists. split; reflexivity.
  - intros out w'.
    destruct (fault en OpQuery) as [e|].
    { intros H; inversion H. now left. }
    destruct (find _ (forms d)) as [form|] eqn:Ef.
    2:{ intros H; inversion H. now left. }
    apply find_form_some in Ef. destruct Ef as [Hin Hid].
    destruct (fault en OpCommit) as [e|].
    { intros H; inversion H. now left. }
    cbv zeta.
    destruct (fault en OpRefresh) as [e|]; intros H; inversion H; right;
      eexists form, _; repeat split; try eassumption; reflexivity.
Qed.

Lemma submit_references_existing_form_witness :
  exists w',
    run (submit_form_response "missing000" (ResponseData.mk [("Name", PStr "Bo")]))
      env0 survey_db
    = (inl (HTTPException 404 (Text "Form not found")), w') /\
    db w' = survey_db.
Proof.
  apply (proj1 (submit_references_existing_form "missing000"
                  (ResponseData.mk [("Name", PStr "Bo")]) env0 survey_db)).
  - reflexivity.
  - intros f [<- | []]. discriminate.
Defined.

Example scenario_3 :
  run (submit_form_response "missing000" (ResponseData.mk [("Name", PStr "Bo")]))
    env0 survey_db
  = (inl (HTTPException 404 (Text "Form not found")),
     mkWorld survey_db [] [EvOpen; EvQuery; EvClose]).
Proof. reflexivity. Qed.

Example submit_to_stored_form :
  run (submit_form_response "V1StGXR8_Z" (ResponseData.mk [("Name", PStr "Bo")]))
    env0 survey_db
  = (inr (PDict [("message", PStr "Response submitted successfully");
                 ("response_id", PInt 1)]),
     mkWorld
       (mkDatabase [] [survey_form]
          [Response.mk (Some 1%Z) (Some 1%Z) (PDict [("Name", PStr "Bo")])])
       [] [EvOpen; EvQuery; EvAdd; EvCommit; EvRefresh; EvClose]).
Proof. reflexivity. Qed.

(** ** Registration *)

Lemma existsb_find_none {A : Type} (p : A -> bool) (l : list A) :
  find p l = None -> existsb p l = false.
Proof.
  induction l as [|a l IH]; simpl; [reflexivity|].
  destruct (p a); [discriminate|]. exact IH.
Qed.

(** What [register_user] does, by the stored users and by the points at
    which the storage can fail. *)
Lemma register_user_run (ud : UserCreate.t) (en : env) (d : database) :
  run (register_user ud) en d =
  match fault en OpQuery with
  | Some e =>
      (inl (register_error (SAError e)),
       mkWorld d [] [EvOpen; EvQuery; EvRollback; EvClose])
  | None =>
      match find (fun u => String.eqb (User.clerk_user_id u)
                             (UserCreate.clerk_user_id ud)) (users d) with
      | Some _ =>
          (inl (register_error already_registered),
           mkWorld d [] [EvOpen; EvQuery; EvRollback; EvClose])
      | None =>
          match fault en OpCommit with
          | Some e =>
              (inl (register_error (SAError e)),
               mkWorld d [] [EvOpen; EvQuery; EvAdd; EvCommit; EvRollback; EvClose])
          | None =>
              let u := User.mk (Some (fresh_pk User.id (users d)))
                         (UserCreate.clerk_user_id ud) (UserCreate.email ud) in
              let d' := mkDatabase (users d ++ [u]) (forms d) (responses d) in
              match fault en OpRefresh with
              | Some e =>
                  (inl (register_error (SAError e)),
                   mkWorld d' []
                     [EvOpen; EvQuery; EvAdd; EvCommit; EvRefresh; EvRollback;
                      EvClose])
              | None =>
                  (inr (PDict [("message", PStr "User registered successfully");
                               ("user_id", PInt (fresh_pk User.id (users d)))]),
                   mkWorld d' []
                     [EvOpen; EvQuery; EvAdd; EvCommit; EvRefresh; EvClose])
              end
          end
      end
  end.
Proof.
  unfold run, register_user, try_finally, try_except, bind, SessionLocal,
    query_first, record, register_error. simpl.
  destruct (fault en OpQuery) as [e|].
  { destruct e; reflexivity. }
  destruct (find _ (users d)) as [u|] eqn:Ef; [reflexivity|].
  unfold add, commit, refresh, close, rollback, raise, ret, record. simpl.
  destruct (fault en OpCommit) as [e|].
  { destruct e; reflexivity. }
  simpl. rewrite (existsb_find_none _ _ Ef). simpl.
  destruct (fault en OpRefresh) as [e|]; [destruct e|]; reflexivity.
Qed.

Lemma find_app_some {A : Type} (p : A -> bool) (l : list A) (a : A) :
  p a = true -> exists x, find p (l ++ [a]) = Some x.
Proof.
  intros Ha. induction l as [|b l IH]; simpl.
  - rewrite Ha. now exists a.
  - destruct (p b); [now exists b | exact IH].
Qed.

(** A registration never touches the stored users that are there, and it
    keeps the auth-provider ids pairwise different. *)
Lemma register_user_keeps_users (ud : UserCreate.t) (en : env) (d : database)
    (out : res pyval) (w' : world) :
  run (register_user ud) en d = (out, w') ->
  db w' = d \/
  exists u,
    User.clerk_user_id u = UserCreate.clerk_user_id ud /\
    (forall u', In u' (users d) ->
                User.clerk_user_id u' <> UserCreate.clerk_user_id ud) /\
    db w' = mkDatabase (users d ++ [u]) (forms d) (responses d).
Proof.
  rewrite register_user_run.
  destruct (fault en OpQuery) as [e|].
  { intros H; inversion H. now left. }
  destruct (find _ (users d)) as [u|] eqn:Ef.
  { intros H; inversion H. now left. }
  destruct (fault en OpCommit) as [e|].
  { intros H; inversion H. now left. }
  assert (Hfresh : forall u', In u' (users d) ->
            User.clerk_user_id u' <> UserCreate.clerk_user_id ud).
  { intros u' Hu'. apply String.eqb_neq.
    exact (proj1 (find_none_iff _ _) Ef u' Hu'). }
  cbv zeta.
  destruct (fault en OpRefresh) as [e|]; intros H; inversion H; right;
    eexists; repeat split; try exact Hfresh; reflexivity.
Qed.

Lemma NoDup_snoc {A : Type} (l : list A) (a : A) :
  NoDup l -> ~ In a l -> NoDup (l ++ [a]).
Proof.
  induction l as [|b l IH]; simpl; intros Hnd Hin.
  - constructor; [intros []|constructor].
  - inversion Hnd as [|? ? Hb Hl]; subst. constructor.
    + rewrite in_app_iff. simpl. intros [H|[H|[]]]; [now apply Hb|].
      apply Hin. now left.
    + apply IH; [exact Hl|]. intros H. apply Hin. now right.
Qed.

Lemma register_user_unique (ud : UserCreate.t) (en : env) (d : database)
    (out : res pyval) (w' : world) :
  NoDup (map User.clerk_user_id (users d)) ->
  run (register_user ud) en d = (out, w') ->
  NoDup (map User.clerk_user_id (users (db w'))).
Proof.
  intros Hnd Hrun.
  destruct (register_user_keeps_users _ _ _ _ _ Hrun) as [-> | [u [Hu [Hfresh ->]]]];
    [exact Hnd|].
  simpl. rewrite map_app. simpl. apply NoDup_snoc; [exact Hnd|].
  intros Hin. apply in_map_iff in Hin. destruct Hin as [u' [He Hin]].
  apply (Hfresh u' Hin). congruence.
Qed.

(** C9. When an auth-provider id is registered a second time the handler
    raises the 400 "User already registered." inside its own [try]; the
    clause [except Exception] catches it, and what the client gets is a 500
    that wraps it. The stored users are the same before and after, and their
    auth-provider ids stay pairwise different. *)
Theorem register_same_id_twice (ud1 ud2 : UserCreate.t) (en1 en2 : env)
    (d : database) (v : pyval) (w1 : world) :
  UserCreate.clerk_user_id ud2 = UserCreate.clerk_user_id ud1 ->
  NoDup (map User.clerk_user_id (users d)) ->
  run (register_user ud1) en1 d = (inr v, w1) ->
  fault en2 OpQuery = None ->
  exists w2,
    run (register_user ud2) en2 (db w1)
    = (inl (HTTPException 500
              (Caused "Error registering user: " already_registered)), w2) /\
    http_status 200 (fst (run (register_user ud2) en2 (db w1))) = 500%Z /\
    db w2 = db w1 /\
    NoDup (map User.clerk_user_id (users (db w2))).
Proof.
  intros Hid Hnd H1 Hq.
  pose proof (register_user_unique _ _ _ _ _ Hnd H1) as Hnd1.
  assert (Hin : exists x,
             find (fun u => String.eqb (User.clerk_user_id u)
                              (UserCreate.clerk_user_id ud2)) (users (db w1))
             = Some x).
  { rewrite register_user_run in H1.
    destruct (fault en1 OpQuery); [inversion H1|].
    destruct (find _ (users d)); [inversion H1|].
    destruct (fault en1 OpCommit); [inversion H1|].
    cbv zeta in H1.
    destruct (fault en1 OpRefresh); inversion H1; subst; simpl.
    apply find_app_some. simpl. rewrite Hid. apply String.eqb_refl. }
  destruct Hin as [x Hx].
  rewrite register_user_run, Hq, Hx. simpl.
  eexists. repeat split. exact Hnd1.
Qed.

Lemma register_same_id_twice_witness :
  exists w1 w2,
    run (register_user alice) env0 empty_db
    = (inr (PDict [("message", PStr "User registered successfully");
                   ("user_id", PInt 1)]), w1) /\
    run (register_user alice) env0 (db w1)
    = (inl (HTTPException 500
              (Caused "Error registering user: " already_registered)), w2) /\
    db w2 = db w1.
Proof.
  eexists.
  destruct (register_same_id_twice alice alice env0 env0 empty_db _ _
              eq_refl (NoDup_nil _) eq_refl eq_refl) as [w2 [H2 [_ [Hdb _]]]].
  exists w2. split; [reflexivity|]. split; [exact H2 | exact Hdb].
Defined.

Example scenario_4 :
  let w1 := snd (run (register_user alice) env0 empty_db) in
  users (db w1) = [User.mk (Some 1%Z) "user_2abc" "alice@example.org"] /\
  run (register_user alice) env0 (db w1)
  = (inl (HTTPException 500
            (Caused "Error registering user: "
               (HTTPException 400 (Text "User already registered.")))),
     mkWorld (db w1) [] [EvOpen; EvQuery; EvRollback; EvClose]).
Proof. split; reflexivity. Qed.

(** ** Saving a form *)

(** What the second half of [upload_file] does, by the stored identifiers and
    by the points at which the storage can fail. *)
Lemma save_form_run (user_id : option Z) (form_name fields : pyval)
    (en : env) (w : world) :
  save_form user_id form_name fields en w =
  let d := db w in
  let failed :=
    (inl save_500,
     mkWorld d [] (log w ++ [EvOpen; EvAdd; EvCommit; EvRollback; EvClose])) in
  match fault en OpCommit with
  | Some e => failed
  | None =>
      match bind_string (text_of en) form_name with
      | inl _ => failed
      | inr name =>
          if existsb (fun f' => String.eqb (Form.form_id f') (nanoid en)) (forms d)
             || negb (references User.id (users d) user_id)
          then failed
          else
            let f := Form.mk (Some (fresh_pk Form.id (forms d))) (nanoid en) user_id
                       name fields in
            let d' := mkDatabase (users d) (forms d ++ [f]) (responses d) in
            match fault en OpRefresh with
            | Some e =>
                (inl save_500,
                 mkWorld d' []
                   (log w ++ [EvOpen; EvAdd; EvCommit; EvRefresh; EvRollback; EvClose]))
            | None =>
                (inr (mkJSONResponse
                        (PDict [("message", PStr "Form uploaded successfully");
                                ("form_id", PStr (nanoid en))])
                        201),
                 mkWorld d' [] (log w ++ [EvOpen; EvAdd; EvCommit; EvRefresh; EvClose]))
            end
      end
  end.
Proof.
  unfold save_form, generate, try_finally, try_except, bind, SessionLocal,
    add, commit, refresh, close, rollback, raise, ret, record. simpl.
  destruct (fault en OpCommit) as [e|]; simpl.
  { now rewrite <- !app_assoc. }
  assert (B : forall e, bind_string (text_of en) form_name = inl e ->
                        is_SQLAlchemyError e = true).
  { unfold bind_string. intros e.
    destruct form_name; try discriminate;
      destruct (text_of en _); try discriminate; intros H; now inversion H. }
  destruct (bind_string (text_of en) form_name) as [e|name] eqn:Eb; simpl.
  { rewrite (B e eq_refl). simpl. now rewrite <- !app_assoc. }
  destruct (existsb _ (forms (db w)) || _); simpl.
  { now rewrite <- !app_assoc. }
  destruct (fault en OpRefresh) as [e|]; simpl; now rewrite <- !app_assoc.
Qed.

Lemma upload_file_run (json_loads : string -> res pyval)
    (read_excel : string -> res DataFrame) (file : UploadFile)
    (user_id : option Z) (en : env) (d : database) :
  run (upload_file json_loads read_excel file user_id) en d =
  match read_form json_loads read_excel file with
  | inl e => (inl e, mkWorld d [] [])
  | inr (form_name, fields) =>
      save_form user_id form_name fields en (mkWorld d [] [])
  end.
Proof.
  unfold run, upload_file, bind, lift.
  destruct (read_form json_loads read_excel file) as [e|[n f]]; reflexivity.
Qed.

(** A successful upload adds exactly one form: it has the generated
    identifier, which no form had before, the name that the first half of
    the handler produced, as the store binds it, and the fields. *)
Lemma upload_file_saved (json_loads : string -> res pyval)
    (read_excel : string -> res DataFrame) (file : UploadFile)
    (user_id : option Z) (en : env) (d : database)
    (resp : JSONResponse) (w' : world) :
  run (upload_file json_loads read_excel file user_id) en d = (inr resp, w') ->
  exists form_name fields name f,
    read_form json_loads read_excel file = inr (form_name, fields) /\
    bind_string (text_of en) form_name = inr name /\
    f = Form.mk (Some (fresh_pk Form.id (forms d))) (nanoid en) user_id
          name fields /\
    db w' = mkDatabase (users d) (forms d ++ [f]) (responses d) /\
    (forall f', In f' (forms d) -> Form.form_id f' <> nanoid en) /\
    resp = mkJSONResponse
             (PDict [("message", PStr "Form uploaded successfully");
                     ("form_id", PStr (nanoid en))]) 201.
Proof.
  rewrite upload_file_run.
  destruct (read_form json_loads read_excel file) as [e|[n fs]];
    [intros H; inversion H|].
  rewrite save_form_run. cbv zeta. simpl.
  destruct (fault en OpCommit); [intros H; inversion H|].
  destruct (bind_string (text_of en) n) as [e|name] eqn:Eb; [intros H; inversion H|].
  destruct (existsb (fun f' => String.eqb (Form.form_id f') (nanoid en)) (forms d))
    eqn:Ee; simpl; [intros H; inversion H|].
  destruct (negb (references User.id (users d) user_id)); [intros H; inversion H|].
  destruct (fault en OpRefresh); intros H; inversion H.
  exists n, fs, name. eexists.
  split; [reflexivity|]. split; [exact Eb|]. split; [reflexivity|].
  split; [reflexivity|]. split; [|reflexivity].
  intros f' Hf'. apply String.eqb_neq.
  destruct (String.eqb (Form.form_id f') (nanoid en)) eqn:E; [|reflexivity].
  assert (X : existsb (fun f' => String.eqb (Form.form_id f') (nanoid en)) (forms d) = true).
  { apply existsb_exists. now exists f'. }
  congruence.
Qed.

Lemma endswith_xlsx_not_json (s : string) :
  PyStr.endswith s ".xlsx" = true -> PyStr.endswith s ".json" = false.
Proof.
  unfold PyStr.endswith.
  change (PyStr.string_rev ".xlsx") with "xslx.".
  change (PyStr.string_rev ".json") with "nosj.".
  destruct (PyStr.string_rev s) as [|c r]; [discriminate|].
  cbn [PyStr.startswith].
  destruct (Ascii.eqb_spec "x" c) as [<-|N]; [intros _; reflexivity | discriminate].
Qed.

Lemma read_form_xlsx (json_loads : string -> res pyval)
    (read_excel : string -> res DataFrame) (file : UploadFile) :
  PyStr.endswith (filename file) ".xlsx" = true ->
  read_form json_loads read_excel file
  = upload_xlsx read_excel (PStr "") (contents file).
Proof.
  intros Hx. unfold read_form.
  rewrite (endswith_xlsx_not_json _ Hx), Hx. reflexivity.
Qed.

Lemma read_form_json (json_loads : string -> res pyval)
    (read_excel : string -> res DataFrame) (file : UploadFile) :
  PyStr.endswith (filename file) ".json" = true ->
  read_form json_loads read_excel file = upload_json json_loads (contents file).
Proof. intros Hj. unfold read_form. rewrite Hj. reflexivity. Qed.

Lemma upload_xlsx_inv (read_excel : string -> res DataFrame)
    (form_name : pyval) (contents : string) (name fields : pyval) :
  upload_xlsx read_excel form_name contents = inr (name, fields) ->
  name = form_name /\
  exists df l,
    read_excel contents = inr df /\
    append_rows (iterrows df) [] = inr l /\
    fields = PList l.
Proof.
  unfold upload_xlsx.
  destruct (read_excel contents) as [e|df]; simpl; [discriminate|].
  destruct (append_rows (iterrows df) []) as [e|l] eqn:El; [discriminate|].
  intros H; inversion H. split; [reflexivity|]. now exists df, l.
Qed.

(** C1 on the code. Every upload of an [.xlsx] file that is saved creates a
    form whose name is the empty string: the branch never assigns
    [form_name]. A sheet without rows is saved with an empty field list. *)
Theorem xlsx_upload_saves_empty_name (json_loads : string -> res pyval)
    (read_excel : string -> res DataFrame) (file : UploadFile)
    (user_id : option Z) (en : env) (d : database)
    (resp : JSONResponse) (w' : world) :
  PyStr.endswith (filename file) ".xlsx" = true ->
  run (upload_file json_loads read_excel file user_id) en d = (inr resp, w') ->
  exists f,
    forms (db w') = forms d ++ [f] /\
    Form.name f = "" /\
    (forall df, read_excel (contents file) = inr df -> values df = [] ->
                Form.fields f = PList []).
Proof.
  intros Hx Hrun.
  destruct (upload_file_saved _ _ _ _ _ _ _ _ Hrun)
    as (n & fs & name & f & Hread & Hb & Hf & Hdb & _ & _).
  rewrite (read_form_xlsx _ _ _ Hx) in Hread.
  apply upload_xlsx_inv in Hread.
  destruct Hread as [-> (df & l & Hdf & Hl & ->)].
  simpl in Hb. inversion Hb; subst name.
  exists f. rewrite Hdb, Hf. simpl. repeat split.
  intros df' Hdf' Hv. rewrite Hdf in Hdf'. inversion Hdf'; subst df'.
  unfold iterrows in Hl. rewrite Hv in Hl. simpl in Hl. now inversion Hl.
Qed.

Lemma xlsx_upload_saves_empty_name_witness :
  exists f,
    forms (db (snd (run (upload_file no_json (fun _ => inr one_row_sheet)
                           (mkUploadFile "survey.xlsx" "PK..") (Some 7%Z))
                      env0 alice_db)))
    = forms alice_db ++ [f] /\
    Form.name f = "".
Proof.
  destruct (xlsx_upload_saves_empty_name no_json (fun _ => inr one_row_sheet)
              (mkUploadFile "survey.xlsx" "PK..") (Some 7%Z) env0 alice_db
              _ _ eq_refl eq_refl) as [f [Hf [Hn _]]].
  exists f. split; [exact Hf | exact Hn].
Defined.

Example xlsx_upload_one_row :
  run (upload_file no_json (fun _ => inr one_row_sheet)
         (mkUploadFile "survey.xlsx" "PK..") (Some 7%Z)) env0 alice_db
  = (inr (mkJSONResponse
            (PDict [("message", PStr "Form uploaded successfully");
                    ("form_id", PStr "V1StGXR8_Z")]) 201),
     mkWorld
       (mkDatabase [alice_user]
          [Form.mk (Some 1%Z) "V1StGXR8_Z" (Some 7%Z) ""
             (PList [PDict [("label", PStr "Name"); ("type", PStr "Text");
                            ("validation", PDict [("required", PBool true)])]])]
          [])
       [] [EvOpen; EvAdd; EvCommit; EvRefresh; EvClose]).
Proof. reflexivity. Qed.

Example xlsx_upload_no_rows :
  forms (db (snd (run (upload_file no_json (fun _ => inr empty_sheet)
                         (mkUploadFile "survey.xlsx" "PK..") None)
                    env0 empty_db)))
  = [Form.mk (Some 1%Z) "V1StGXR8_Z" None "" (PList [])].
Proof. reflexivity. Qed.

(** The [.json] branch, for comparison, refuses an empty name and an empty
    field list: what is saved from it was true for Python, and a name that
    is a string is saved as it is and is not empty. *)
Lemma json_upload_saves_truthy (json_loads : string -> res pyval)
    (read_excel : string -> res DataFrame) (file : UploadFile)
    (user_id : option Z) (en : env) (d : database)
    (resp : JSONResponse) (w' : world) :
  PyStr.endswith (filename file) ".json" = true ->
  run (upload_file json_loads read_excel file user_id) en d = (inr resp, w') ->
  exists f form_name,
    forms (db w') = forms d ++ [f] /\
    truthy form_name = true /\
    bind_string (text_of en) form_name = inr (Form.name f) /\
    (forall s, form_name = PStr s -> Form.name f = s /\ s <> "") /\
    truthy (Form.fields f) = true.
Proof.
  intros Hj Hrun.
  destruct (upload_file_saved _ _ _ _ _ _ _ _ Hrun)
    as (n & fs & name & f & Hread & Hb & Hf & Hdb & _ & _).
  rewrite (read_form_json _ _ _ Hj) in Hread.
  unfold upload_json in Hread.
  destruct (json_loads (contents file)) as [e|data]; simpl in Hread; [discriminate|].
  destruct (py_get data "formName") as [e|n']; simpl in Hread; [discriminate|].
  destruct (py_get data "fields") as [e|fs']; simpl in Hread; [discriminate|].
  destruct (truthy n') eqn:Tn; destruct (truthy fs') eqn:Tf; simpl in Hread;
    try discriminate.
  inversion Hread; subst n' fs'.
  exists f, n. rewrite Hdb, Hf. simpl.
  split; [reflexivity|]. split; [exact Tn|]. split; [exact Hb|].
  split; [|exact Tf].
  intros s ->. simpl in Hb. inversion Hb; subst name.
  split; [reflexivity|]. intros ->. discriminate Tn.
Qed.

(** ** Failures of the storage *)

Lemma find_form_exists (formId : string) (l : list Form.t) :
  (exists f, In f l /\ Form.form_id f = formId) ->
  exists form, find (fun f => String.eqb (Form.form_id f) formId) l = Some form.
Proof.
  intros [f [Hin Hid]].
  destruct (find (fun f => String.eqb (Form.form_id f) formId) l) as [form|] eqn:E.
  - now exists form.
  - pose proof (proj1 (find_none_iff _ _) E f Hin) as H. simpl in H.
    rewrite Hid, String.eqb_refl in H. discriminate H.
Qed.

(** Registration and upload: a commit that fails is followed by a rollback,
    then the error is raised, and the store is as it was. *)
Lemma register_commit_failure_rolls_back (ud : UserCreate.t) (en : env)
    (d : database) (e : sqlalchemy_error) :
  fault en OpQuery = None ->
  (forall u, In u (users d) ->
             User.clerk_user_id u <> UserCreate.clerk_user_id ud) ->
  fault en OpCommit = Some e ->
  run (register_user ud) en d
  = (inl (register_error (SAError e)),
     mkWorld d [] [EvOpen; EvQuery; EvAdd; EvCommit; EvRollback; EvClose]).
Proof.
  intros Hq Hno Hc. rewrite register_user_run, Hq, Hc.
  assert (E : find (fun u => String.eqb (User.clerk_user_id u)
                               (UserCreate.clerk_user_id ud)) (users d) = None).
  { apply find_none_iff. intros u Hu. apply String.eqb_neq. now apply Hno. }
  now rewrite E.
Qed.

Lemma upload_commit_failure_rolls_back (json_loads : string -> res pyval)
    (read_excel : string -> res DataFrame) (file : UploadFile)
    (user_id : option Z) (en : env) (d : database) (e : sqlalchemy_error)
    (form_name fields : pyval) :
  read_form json_loads read_excel file = inr (form_name, fields) ->
  fault en OpCommit = Some e ->
  run (upload_file json_loads read_excel file user_id) en d
  = (inl save_500,
     mkWorld d [] [EvOpen; EvAdd; EvCommit; EvRollback; EvClose]).
Proof.
  intros Hr Hc. rewrite upload_file_run, Hr, save_form_run. cbv zeta.
  now rewrite Hc.
Qed.

(** Whatever happens, an upload leaves the store as it was or with one more
    form. *)
Lemma upload_file_keeps_forms (json_loads : string -> res pyval)
    (read_excel : string -> res DataFrame) (file : UploadFile)
    (user_id : option Z) (en : env) (d : database)
    (out : res JSONResponse) (w' : world) :
  run (upload_file json_loads read_excel file user_id) en d = (out, w') ->
  db w' = d \/
  exists f, db w' = mkDatabase (users d) (forms d ++ [f]) (responses d).
Proof.
  rewrite upload_file_run.
  destruct (read_form json_loads read_excel file) as [e|[n fs]].
  { intros H; inversion H. now left. }
  rewrite save_form_run. cbv zeta. simpl.
  destruct (fault en OpCommit).
  { intros H; inversion H. now left. }
  destruct (bind_string (text_of en) n) as [e|name].
  { intros H; inversion H. now left. }
  destruct (existsb _ (forms d) || _).
  { intros H; inversion H. now left. }
  destruct (fault en OpRefresh); intros H; inversion H; right; eexists; reflexivity.
Qed.

(** [submit_form_response] has no [try] of its own: when its commit fails,
    the calls on the session are open, query, add, commit and close. The
    session is closed by [get_db], and closing it rolls back. *)
Lemma submit_commit_failure_log (formId : string)
    (rd : ResponseData.t) (en : env) (d : database) (e : sqlalchemy_error) :
  fault en OpQuery = None ->
  (exists f, In f (forms d) /\ Form.form_id f = formId) ->
  fault en OpCommit = Some e ->
  run (submit_form_response formId rd) en d
  = (inl (SAError e), mkWorld d [] [EvOpen; EvQuery; EvAdd; EvCommit; EvClose]).
Proof.
  intros Hq Hex Hc.
  destruct (find_form_exists _ _ Hex) as [form Hf].
  now rewrite submit_form_response_run, Hq, Hf, Hc.
Qed.



Example commit_failure_three_handlers :
  map (fun w => log w)
    [ snd (run (register_user alice)
             (mkEnv "" (commit_fails OperationalError)) survey_db);
      snd (run (upload_file (fun _ => inr (PDict survey_payload)) no_excel
                  (mkUploadFile "survey.json" "{...}") None)
             (mkEnv "abcdefghij" (commit_fails OperationalError)) survey_db);
      snd (run (submit_form_response "V1StGXR8_Z" (ResponseData.mk []))
             (mkEnv "" (commit_fails OperationalError)) survey_db) ]
  = [ [EvOpen; EvQuery; EvAdd; EvCommit; EvRollback; EvClose];
      [EvOpen; EvAdd; EvCommit; EvRollback; EvClose];
      [EvOpen; EvQuery; EvAdd; EvCommit; EvClose] ].
Proof. reflexivity. Qed.

(** ** Fetching a form *)

Lemma validate_each_str (l : list pyval) (l' : list string) :
  validate_each validate_str l = inr l' -> l = map PStr l'.
Proof.
  revert l'. induction l as [|v l IH]; simpl; intros l' H.
  - inversion H. reflexivity.
  - destruct v; simpl in H; try discriminate.
    destruct (validate_each validate_str l) as [e|l0]; simpl in H; [discriminate|].
    inversion H. simpl. now rewrite (IH l0 eq_refl).
Qed.

Lemma validate_each_str_map (l : list string) :
  validate_each validate_str (map PStr l) = inr l.
Proof. induction l as [|s l IH]; simpl; [reflexivity|]. now rewrite IH. Qed.

Lemma validate_each_Forall2 {A : Type} (f : pyval -> res A) (l : list pyval)
    (l' : list A) :
  validate_each f l = inr l' -> Forall2 (fun v a => f v = inr a) l l'.
Proof.
  revert l'. induction l as [|v l IH]; simpl; intros l' H.
  - inversion H. constructor.
  - destruct (f v) as [e|a] eqn:Ef; simpl in H; [discriminate|].
    destruct (validate_each f l) as [e|l0]; simpl in H; [discriminate|].
    inversion H. constructor; [exact Ef | now apply IH].
Qed.

Lemma validate_each_total {A : Type} (f : pyval -> res A) (l : list pyval) :
  Forall (fun v => exists a, f v = inr a) l ->
  exists l', validate_each f l = inr l'.
Proof.
  induction 1 as [|v l [a Ha] _ [l' IH]]; simpl.
  - now exists [].
  - rewrite Ha, IH. simpl. now eexists.
Qed.

(** The validation of a descriptor keeps what the descriptor says. *)
Lemma FormField_validate_same (v : pyval) (ff : FormField.t) :
  FormField_validate v = inr ff -> same_descriptor v ff.
Proof.
  destruct v as [| | | | |l|kv]; simpl; try discriminate.
  intros H. exists kv. split; [reflexivity|].
  destruct (Dict.lookup kv "label") as [[| | | |lab| |]|]; simpl in H;
    try discriminate.
  destruct (Dict.lookup kv "type") as [[| | | |ty| |]|]; simpl in H;
    try discriminate.
  destruct (Dict.lookup kv "options") as [[| | | | |lo|]|]; simpl in H;
    try discriminate;
    try (destruct (validate_each validate_str lo) as [e|lo'] eqn:Eo;
         simpl in H; [discriminate|]; apply validate_each_str in Eo);
    destruct (Dict.lookup kv "validation") as [[| | | | | |dv]|]; simpl in H;
    try discriminate; inversion H; subst; simpl; repeat split; auto.
Qed.

(** A descriptor of the shape of the interface passes the validation. *)
Lemma well_shaped_validates (v : pyval) :
  well_shaped v -> exists ff, FormField_validate v = inr ff.
Proof.
  intros (kv & lab & ty & o & va & -> & Hl & Ht & Ho & Hv).
  simpl. rewrite Hl, Ht. simpl.
  destruct o as [lo|]; simpl in Ho;
    [rewrite Ho | destruct Ho as [Ho|Ho]; rewrite Ho]; simpl;
    try rewrite validate_each_str_map; simpl;
    (destruct va as [dv|]; simpl in Hv;
     [rewrite Hv | destruct Hv as [Hv|Hv]; rewrite Hv]); simpl;
    eexists; reflexivity.
Qed.

(** Every descriptor that the normaliser builds has that shape. *)
Lemma field_json_well_shaped (row : Series) (d : pydict) :
  field_json_of_row row = inr d -> well_shaped (PDict d).
Proof.
  intros H.
  destruct (field_json_of_row_inv _ _ H) as (l & t & r & _ & _ & _ & Hd).
  cbv zeta in Hd. destruct Hd as [[_ [o [_ ->]]] | [_ ->]].
  - eexists. exists (PyStr.strip l), (PyStr.strip t),
      (Some (strip_nonempty (PyStr.split "," o))),
      (Some [("required", PBool (String.eqb (PyStr.lower (PyStr.strip r)) "yes"))]).
    repeat split.
  - eexists. exists (PyStr.strip l), (PyStr.strip t), None,
      (Some [("required", PBool (String.eqb (PyStr.lower (PyStr.strip r)) "yes"))]).
    repeat split. simpl. now left.
Qed.

Lemma append_rows_Forall (P : pyval -> Prop) (rows : list Series) :
  (forall row d, field_json_of_row row = inr d -> P (PDict d)) ->
  forall acc l, Forall P acc -> append_rows rows acc = inr l -> Forall P l.
Proof.
  intros HP. induction rows as [|row rows IH]; simpl; intros acc l Hacc H.
  - inversion H; subst. exact Hacc.
  - destruct (field_json_of_row row) as [e|d] eqn:Ed; simpl in H; [discriminate|].
    apply (IH (acc ++ [PDict d]) l); [|exact H].
    apply Forall_app. split; [exact Hacc|].
    constructor; [now apply (HP row) | constructor].
Qed.

Lemma append_rows_length (rows : list Series) :
  forall acc l, append_rows rows acc = inr l ->
                List.length l = (List.length acc + List.length rows)%nat.
Proof.
  induction rows as [|row rows IH]; simpl; intros acc l H.
  - inversion H. lia.
  - destruct (field_json_of_row row) as [e|d]; simpl in H; [discriminate|].
    rewrite (IH _ _ H), length_app. simpl. lia.
Qed.

Lemma find_app_fresh {A : Type} (p : A -> bool) (l : list A) (a : A) :
  (forall x, In x l -> p x = false) -> p a = true ->
  find p (l ++ [a]) = Some a.
Proof.
  intros Hl Ha. induction l as [|b l IH]; simpl.
  - now rewrite Ha.
  - rewrite (Hl b (or_introl eq_refl)). apply IH.
    intros x Hx. apply Hl. now right.
Qed.

Lemma validate_each_error {A : Type} (f : pyval -> res A) (l : list pyval)
    (e : exc) :
  (forall v e', f v = inl e' -> e' = ValidationError) ->
  validate_each f l = inl e -> e = ValidationError.
Proof.
  intros Hf. induction l as [|v l IH]; simpl; [discriminate|].
  destruct (f v) as [e'|a] eqn:Ev; simpl.
  - intros H; inversion H; subst. now apply (Hf v).
  - destruct (validate_each f l) as [e'|l']; simpl; [|discriminate].
    intros H; inversion H; subst. now apply IH.
Qed.

Lemma validate_str_error (v : pyval) (e : exc) :
  validate_str v = inl e -> e = ValidationError.
Proof. destruct v; simpl; intros H; now inversion H. Qed.

Lemma validate_list_error {A : Type} (f : pyval -> res A) (v : pyval) (e : exc) :
  (forall v e', f v = inl e' -> e' = ValidationError) ->
  validate_list f v = inl e -> e = ValidationError.
Proof.
  intros Hf. destruct v; simpl; try (intros H; now inversion H).
  now apply validate_each_error.
Qed.

Lemma validate_optional_error {A : Type} (f : pyval -> res A)
    (entry : option pyval) (e : exc) :
  (forall v e', f v = inl e' -> e' = ValidationError) ->
  validate_optional f entry = inl e -> e = ValidationError.
Proof.
  intros Hf. destruct entry as [v|]; simpl; [|discriminate].
  destruct v; simpl; try discriminate;
    match goal with
    | |- context [f ?x] =>
        destruct (f x) as [e'|a] eqn:Ev; simpl; [|discriminate];
        intros H; inversion H; subst; now apply (Hf x)
    end.
Qed.

Lemma FormField_validate_error (v : pyval) (e : exc) :
  FormField_validate v = inl e -> e = ValidationError.
Proof.
  destruct v as [| | | | | |kv]; simpl; try (intros H; now inversion H).
  destruct (validate_required validate_str (Dict.lookup kv "label")) as [e1|a1] eqn:E1;
    simpl.
  { intros H; inversion H; subst.
    destruct (Dict.lookup kv "label"); simpl in E1;
      [now apply validate_str_error in E1 | now inversion E1]. }
  destruct (validate_required validate_str (Dict.lookup kv "type")) as [e2|a2] eqn:E2;
    simpl.
  { intros H; inversion H; subst.
    destruct (Dict.lookup kv "type"); simpl in E2;
      [now apply validate_str_error in E2 | now inversion E2]. }
  destruct (validate_optional (validate_list validate_str) (Dict.lookup kv "options"))
    as [e3|a3] eqn:E3; simpl.
  { intros H; inversion H; subst.
    apply validate_optional_error in E3; [exact E3|].
    intros v0 e'. apply validate_list_error. exact validate_str_error. }
  destruct (validate_optional validate_dict (Dict.lookup kv "validation"))
    as [e4|a4] eqn:E4; simpl; [|discriminate].
  intros H; inversion H; subst.
  apply validate_optional_error in E4; [exact E4|].
  intros v0 e'. destruct v0; simpl; intros H0; now inversion H0.
Qed.

Lemma FormResponse_validate_error (form_id : string) (name fields : pyval)
    (e : exc) :
  FormResponse_validate form_id name fields = inl e -> e = ValidationError.
Proof.
  unfold FormResponse_validate.
  destruct (validate_str name) as [e1|s] eqn:E1; simpl.
  { intros H; inversion H; subst. now apply validate_str_error in E1. }
  destruct (validate_list FormField_validate fields) as [e2|l] eqn:E2; simpl;
    [|discriminate].
  intros H; inversion H; subst.
  apply validate_list_error in E2; [exact E2 | exact FormField_validate_error].
Qed.

(** What [get_form] answers when the storage works and the stored form has
    a field list. *)
Lemma get_form_stored_list (json_loads : string -> res pyval) (form_id : string)
    (en : env) (d : database) (form : Form.t) (l : list pyval) :
  fault en OpQuery = None ->
  find (fun f => String.eqb (Form.form_id f) form_id) (forms d) = Some form ->
  Form.fields form = PList l ->
  run (get_form json_loads form_id) en d
  = (FormResponse_validate (Form.form_id form) (PStr (Form.name form)) (PList l),
     mkWorld d [] [EvOpen; EvQuery; EvClose]).
Proof.
  intros Hq Hf Hl.
  unfold run, get_form, get_db, try_finally, try_except, bind, SessionLocal,
    query_first, record, close, lift, raise, ret. simpl.
  rewrite Hq, Hf, Hl.
  destruct (FormResponse_validate (Form.form_id form) (PStr (Form.name form))
              (PList l))
    as [e|r] eqn:Ev; [|reflexivity].
  apply FormResponse_validate_error in Ev. subst e. reflexivity.
Qed.

Lemma validate_fields_same (l : list pyval) :
  Forall well_shaped l ->
  exists ffs,
    validate_each FormField_validate l = inr ffs /\
    Forall2 same_descriptor l ffs.
Proof.
  intros Hl.
  destruct (validate_each_total FormField_validate l) as [ffs Hffs].
  { eapply Forall_impl; [|exact Hl]. exact well_shaped_validates. }
  exists ffs. split; [exact Hffs|].
  apply validate_each_Forall2 in Hffs.
  eapply Forall2_impl; [|exact Hffs]. exact FormField_validate_same.
Qed.

(** C10, as the code has it. After an upload that was saved and answered
    with an identifier, and with the storage working, [get_form] on that
    identifier finds the form of this upload, which has the name and the
    fields that the upload handed to the store. If the saved fields are a
    list and every saved descriptor has the shape of the interface, the
    answer carries the saved name and, in the same order, a [FormField] for
    each descriptor with its label, type, options and validation. What the
    [.xlsx] branch saves always is of that kind. *)
Theorem upload_then_fetch (json_loads : string -> res pyval)
    (read_excel : string -> res DataFrame) (file : UploadFile)
    (user_id : option Z) (en en' : env) (d : database)
    (resp : JSONResponse) (w' : world) :
  run (upload_file json_loads read_excel file user_id) en d = (inr resp, w') ->
  fault en' OpQuery = None ->
  exists f,
    forms (db w') = forms d ++ [f] /\
    Form.form_id f = nanoid en /\
    py_get (content resp) "form_id" = inr (PStr (nanoid en)) /\
    (exists form_name,
       read_form json_loads read_excel file = inr (form_name, Form.fields f) /\
       bind_string (text_of en) form_name = inr (Form.name f)) /\
    (forall l,
       Form.fields f = PList l ->
       Forall well_shaped l ->
       exists ffs,
         fst (run (get_form json_loads (nanoid en)) en' (db w'))
         = inr (FormResponse.mk (nanoid en) (Form.name f) ffs) /\
         Forall2 same_descriptor l ffs) /\
    (PyStr.endswith (filename file) ".xlsx" = true ->
     exists l,
       Form.name f = "" /\ Form.fields f = PList l /\
       Forall well_shaped l).
Proof.
  intros Hrun Hq.
  destruct (upload_file_saved _ _ _ _ _ _ _ _ Hrun)
    as (n & fs & name & f & Hread & Hb & Hf & Hdb & Hfresh & Hresp).
  exists f. rewrite Hdb, Hresp. simpl.
  split; [reflexivity|]. split; [now rewrite Hf|]. split; [reflexivity|].
  split; [|split].
  - exists n. rewrite Hf. simpl. split; assumption.
  - intros l Hl Hshape.
    destruct (validate_fields_same l Hshape) as [ffs [Hv Hsame]].
    exists ffs. split; [|exact Hsame].
    rewrite (get_form_stored_list json_loads (nanoid en) en'
               (mkDatabase (users d) (forms d ++ [f]) (responses d)) f l Hq).
    + simpl. unfold FormResponse_validate. simpl. rewrite Hv.
      simpl. now rewrite Hf.
    + simpl. apply find_app_fresh.
      * intros x Hx. apply String.eqb_neq. now apply Hfresh.
      * rewrite Hf. simpl. apply String.eqb_refl.
    + exact Hl.
  - intros Hx. rewrite (read_form_xlsx _ _ _ Hx) in Hread.
    apply upload_xlsx_inv in Hread.
    destruct Hread as [-> (df & l & _ & Hl & ->)].
    simpl in Hb. inversion Hb; subst name.
    exists l. rewrite Hf. simpl. repeat split.
    apply (append_rows_Forall well_shaped (iterrows df) field_json_well_shaped
             [] l (Forall_nil _) Hl).
Qed.

Lemma upload_then_fetch_witness :
  exists f l ffs,
    forms (db (snd (run (upload_file no_json (fun _ => inr one_row_sheet)
                           (mkUploadFile "survey.xlsx" "PK..") None)
                      env0 empty_db)))
    = forms empty_db ++ [f] /\
    Form.fields f = PList l /\
    fst (run (get_form no_json "V1StGXR8_Z") env0
           (db (snd (run (upload_file no_json (fun _ => inr one_row_sheet)
                            (mkUploadFile "survey.xlsx" "PK..") None)
                       env0 empty_db))))
    = inr (FormResponse.mk "V1StGXR8_Z" (Form.name f) ffs) /\
    Forall2 same_descriptor l ffs.
Proof.
  destruct (upload_then_fetch no_json (fun _ => inr one_row_sheet)
              (mkUploadFile "survey.xlsx" "PK..") None env0 env0 empty_db
              _ _ eq_refl eq_refl) as (f & Hf & _ & _ & _ & Hget & Hx).
  destruct (Hx eq_refl) as (l & _ & Hl & Hshape).
  destruct (Hget l Hl Hshape) as (ffs & Hr & Hsame).
  exists f, l, ffs. repeat split; assumption.
Defined.

Example upload_then_fetch_xlsx :
  let w := snd (run (upload_file no_json (fun _ => inr one_row_sheet)
                       (mkUploadFile "survey.xlsx" "PK..") None) env0 empty_db) in
  fst (run (get_form no_json "V1StGXR8_Z") env0 (db w))
  = inr (FormResponse.mk "V1StGXR8_Z" ""
           [FormField.mk "Name" "Text" None (Some [("required", PBool true)])]).
Proof. reflexivity. Qed.

Example scenario_1 :
  let jl := fun _ : string => inr (PDict survey_payload) in
  let w := snd (run (upload_file jl no_excel
                       (mkUploadFile "survey.json" "{...}") None) env0 empty_db) in
  forms (db w)
  = [Form.mk (Some 1%Z) "V1StGXR8_Z" None "Survey" (PList survey_fields)] /\
  fst (run (get_form jl "V1StGXR8_Z") env0 (db w))
  = inr (FormResponse.mk "V1StGXR8_Z" "Survey"
           [FormField.mk "Name" "Text" None None]).
Proof. split; reflexivity. Qed.

(** C10, as it is worded, fails: the [.json] branch checks that the fields
    are not empty and nothing else, so a descriptor without a type is saved
    and the upload is answered with an identifier; [get_form] on that
    identifier then fails in the validation of the response. *)
Lemma upload_then_fetch_fails :
  let jl := fun _ : string => inr (PDict untyped_payload) in
  let up := run (upload_file jl no_excel (mkUploadFile "survey.json" "{...}") None)
              env0 empty_db in
  fst up = inr (mkJSONResponse
                  (PDict [("message", PStr "Form uploaded successfully");
                          ("form_id", PStr "V1StGXR8_Z")]) 201) /\
  forms (db (snd up))
  = [Form.mk (Some 1%Z) "V1StGXR8_Z" None "Survey" (PList untyped_fields)] /\
  run (get_form jl "V1StGXR8_Z") env0 (db (snd up))
  = (inl ValidationError, mkWorld (db (snd up)) [] [EvOpen; EvQuery; EvClose]).
Proof. repeat split. Qed.

(* ================================================================== *)
(** * Further properties of the handlers *)

(** ** The handlers that only read *)

Lemma get_form_run (json_loads : string -> res pyval) (form_id : string)
    (en : env) (d : database) :
  run (get_form json_loads form_id) en d =
  (match fault en OpQuery with
   | Some _ => inl retrieve_500
   | None =>
       match find (fun f => String.eqb (Form.form_id f) form_id) (forms d) with
       | None => inl form_404
       | Some form =>
           match (let? fields_data :=
                    match Form.fields form with
                    | PStr s => json_loads s
                    | v => inr v
                    end in
                  FormResponse_validate (Form.form_id form)
                    (PStr (Form.name form)) fields_data) with
           | inl e => inl (if is_SQLAlchemyError e then retrieve_500 else e)
           | inr r => inr r
           end
       end
   end,
   mkWorld d [] [EvOpen; EvQuery; EvClose]).
Proof.
  unfold run, get_form, get_db, try_finally, try_except, bind, SessionLocal,
    query_first, record, close, lift, raise, ret.
  cbn -[FormResponse_validate].
  destruct (fault en OpQuery) as [e|]; [reflexivity|].
  destruct (find _ (forms d)) as [form|]; [|reflexivity].
  destruct (Form.fields form) as [| | | |s| |]; cbn -[FormResponse_validate];
    try (destruct (FormResponse_validate _ _ _) as [e|r];
         cbn -[FormResponse_validate];
         [destruct (is_SQLAlchemyError e)|]; reflexivity).
  destruct (json_loads s) as [e|v]; cbn -[FormResponse_validate].
  - destruct (is_SQLAlchemyError e); reflexivity.
  - destruct (FormResponse_validate _ _ _) as [e|r]; cbn -[FormResponse_validate];
      [destruct (is_SQLAlchemyError e)|]; reflexivity.
Qed.

Lemma get_form_responses_run (formId : string) (en : env) (d : database) :
  run (get_form_responses formId) en d =
  match fault en OpQuery with
  | Some e => (inl (SAError e), mkWorld d [] [EvOpen; EvQuery; EvClose])
  | None =>
      match find (fun f => String.eqb (Form.form_id f) formId) (forms d) with
      | None => (inl form_404, mkWorld d [] [EvOpen; EvQuery; EvClose])
      | Some form =>
          (inr (PDict [("form_id", PStr (Form.form_id form));
                       ("responses",
                        PList (map Response.data
                                 (filter (response_of form) (responses d))))]),
           mkWorld d [] [EvOpen; EvQuery; EvQuery; EvClose])
      end
  end.
Proof.
  unfold run, get_form_responses, get_db, try_finally, bind, SessionLocal,
    query_first, query_all, record, close, raise, ret. simpl.
  destruct (fault en OpQuery) as [e|] eqn:Eq; [reflexivity|].
  destruct (find _ (forms d)) as [form|]; [|reflexivity].
  rewrite Eq. reflexivity.
Qed.

Lemma get_user_forms_run (userId : Z) (en : env) (d : database) :
  run (get_user_forms userId) en d =
  (match fault en OpQuery with
   | Some e => inl (SAError e)
   | None =>
       match filter (owned_by userId) (forms d) with
       | [] => inl (HTTPException 404 (Text "No forms found for this user"))
       | l => inr (PDict [("userId", PInt userId);
                          ("forms", PList (map form_entry l))])
       end
   end,
   mkWorld d [] [EvOpen; EvQuery; EvClose]).
Proof.
  unfold run, get_user_forms, get_db, try_finally, bind, SessionLocal,
    query_all, record, close, raise, ret. simpl.
  destruct (fault en OpQuery) as [e|]; [reflexivity|].
  destruct (filter (owned_by userId) (forms d)); reflexivity.
Qed.

Lemma get_user_id_run (clerk_user_id : string) (en : env) (d : database) :
  run (get_user_id clerk_user_id) en d =
  (match fault en OpQuery with
   | Some e => inl (SAError e)
   | None =>
       match find (fun u => String.eqb (User.clerk_user_id u) clerk_user_id)
               (users d) with
       | Some user => inr (PDict [("user_id", pk_val (User.id user))])
       | None => inl (HTTPException 404 (Text "User not found."))
       end
   end,
   mkWorld d [] [EvOpen; EvQuery; EvClose]).
Proof.
  unfold run, get_user_id, try_finally, bind, SessionLocal,
    query_first, record, close, raise, ret. simpl.
  destruct (fault en OpQuery) as [e|]; [reflexivity|].
  destruct (find _ (users d)); reflexivity.
Qed.

(** X1. The four handlers that answer a GET never change the store and
    never leave anything in the session, whether they return, raise a 404
    or are hit by a failure of the storage. *)
Theorem get_handlers_read_only (json_loads : string -> res pyval)
    (en : env) (d : database) :
  (forall form_id,
     db (snd (run (get_form json_loads form_id) en d)) = d /\
     session (snd (run (get_form json_loads form_id) en d)) = []) /\
  (forall formId,
     db (snd (run (get_form_responses formId) en d)) = d /\
     session (snd (run (get_form_responses formId) en d)) = []) /\
  (forall userId,
     db (snd (run (get_user_forms userId) en d)) = d /\
     session (snd (run (get_user_forms userId) en d)) = []) /\
  (forall clerk_user_id,
     db (snd (run (get_user_id clerk_user_id) en d)) = d /\
     session (snd (run (get_user_id clerk_user_id) en d)) = []).
Proof.
  repeat split.
  - now rewrite get_form_run.
  - now rewrite get_form_run.
  - rewrite get_form_responses_run.
    destruct (fault en OpQuery); [reflexivity|].
    destruct (find _ (forms d)); reflexivity.
  - rewrite get_form_responses_run.
    destruct (fault en OpQuery); [reflexivity|].
    destruct (find _ (forms d)); reflexivity.
  - now rewrite get_user_forms_run.
  - now rewrite get_user_forms_run.
  - now rewrite get_user_id_run.
  - now rewrite get_user_id_run.
Qed.

(** X2. When the query fails, [get_form] answers with the 500 "Error
    retrieving form data." and hides the error of the storage, while
    [get_form_responses], [get_user_forms] and [get_user_id], which catch
    nothing, let that error leave the handler as it is. *)
Theorem query_failure_answers (json_loads : string -> res pyval)
    (en : env) (d : database) (e : sqlalchemy_error) (form_id : string)
    (userId : Z) (clerk_user_id : string) :
  fault en OpQuery = Some e ->
  fst (run (get_form json_loads form_id) en d) = inl retrieve_500 /\
  fst (run (get_form_responses form_id) en d) = inl (SAError e) /\
  fst (run (get_user_forms userId) en d) = inl (SAError e) /\
  fst (run (get_user_id clerk_user_id) en d) = inl (SAError e).
Proof.
  intros Hq.
  rewrite get_form_run, get_form_responses_run, get_user_forms_run,
    get_user_id_run, Hq.
  repeat split.
Qed.

Lemma query_failure_answers_witness :
  fst (run (get_form no_json "V1StGXR8_Z")
         (mkEnv "" (fun _ => Some OperationalError)) survey_db)
  = inl retrieve_500 /\
  fst (run (get_user_id "user_2abc")
         (mkEnv "" (fun _ => Some OperationalError)) survey_db)
  = inl (SAError OperationalError).
Proof.
  destruct (query_failure_answers no_json
              (mkEnv "" (fun _ => Some OperationalError)) survey_db
              OperationalError "V1StGXR8_Z" 1%Z "user_2abc" eq_refl)
    as [H1 [_ [_ H4]]].
  split; [exact H1 | exact H4].
Defined.

(** X3. With the storage working, an identifier that nothing in the store
    carries is answered with a 404 by each of the four handlers: "Form not
    found" for a form identifier, "User not found." for an auth-provider id,
    and "No forms found for this user" for a user who owns no form. *)
Theorem unknown_identifier_404 (json_loads : string -> res pyval)
    (en : env) (d : database) (form_id clerk_user_id : string) (userId : Z) :
  fault en OpQuery = None ->
  ((forall f, In f (forms d) -> Form.form_id f <> form_id) ->
   fst (run (get_form json_loads form_id) en d) = inl form_404 /\
   fst (run (get_form_responses form_id) en d) = inl form_404) /\
  ((forall u, In u (users d) -> User.clerk_user_id u <> clerk_user_id) ->
   fst (run (get_user_id clerk_user_id) en d)
   = inl (HTTPException 404 (Text "User not found."))) /\
  ((forall f, In f (forms d) -> Form.user_id f <> Some userId) ->
   fst (run (get_user_forms userId) en d)
   = inl (HTTPException 404 (Text "No forms found for this user"))).
Proof.
  intros Hq. split; [|split].
  - intros Hno.
    assert (E : find (fun f => String.eqb (Form.form_id f) form_id) (forms d) = None).
    { apply find_none_iff. intros f Hf. apply String.eqb_neq. now apply Hno. }
    rewrite get_form_run, get_form_responses_run, Hq, E. split; reflexivity.
  - intros Hno.
    assert (E : find (fun u => String.eqb (User.clerk_user_id u) clerk_user_id)
                  (users d) = None).
    { apply find_none_iff. intros u Hu. apply String.eqb_neq. now apply Hno. }
    now rewrite get_user_id_run, Hq, E.
  - intros Hno.
    assert (E : filter (owned_by userId) (forms d) = []).
    { induction (forms d) as [|f l IH]; simpl; [reflexivity|].
      assert (Hf : owned_by userId f = false).
      { unfold owned_by. destruct (Form.user_id f) as [u|] eqn:Eu; [|reflexivity].
        apply Z.eqb_neq. intros ->. apply (Hno f); [now left | exact Eu]. }
      rewrite Hf. apply IH. intros x Hx. apply Hno. now right. }
    now rewrite get_user_forms_run, Hq, E.
Qed.

Lemma unknown_identifier_404_witness :
  fst (run (get_form no_json "missing000") env0 survey_db) = inl form_404 /\
  fst (run (get_user_id "user_2abc") env0 survey_db)
  = inl (HTTPException 404 (Text "User not found.")) /\
  fst (run (get_user_forms 7) env0 survey_db)
  = inl (HTTPException 404 (Text "No forms found for this user")).
Proof.
  destruct (unknown_identifier_404 no_json env0 survey_db "missing000"
              "user_2abc" 7%Z eq_refl) as [H1 [H2 H3]].
  split; [|split].
  - apply H1. intros f [<- | []]. discriminate.
  - apply H2. intros u [].
  - apply H3. intros f [<- | []]. discriminate.
Defined.

(** X4. Whatever [get_form] returns comes from a stored form with the
    identifier that was asked for: the answer has that identifier, the name
    of that form, and one field per stored descriptor, in the same order and
    with the same label, type, options and validation. The stored fields
    are a list, or a string that [json.loads] turns into one. *)
Theorem get_form_answer_is_stored (json_loads : string -> res pyval)
    (form_id : string) (en : env) (d : database)
    (r : FormResponse.t) (w' : world) :
  run (get_form json_loads form_id) en d = (inr r, w') ->
  FormResponse.form_id r = form_id /\
  exists form l,
    In form (forms d) /\
    Form.form_id form = form_id /\
    Form.name form = FormResponse.name r /\
    (Form.fields form = PList l \/
     exists s, Form.fields form = PStr s /\ json_loads s = inr (PList l)) /\
    Forall2 same_descriptor l (FormResponse.fields r).
Proof.
  rewrite get_form_run.
  destruct (fault en OpQuery); [intros H; inversion H|].
  destruct (find _ (forms d)) as [form|] eqn:Ef; [|intros H; inversion H].
  apply find_form_some in Ef. destruct Ef as [Hin Hid].
  assert (Key : forall fd,
            FormResponse_validate (Form.form_id form) (PStr (Form.name form)) fd
            = inr r ->
            FormResponse.form_id r = form_id /\
            Form.name form = FormResponse.name r /\
            exists l, fd = PList l /\
                      Forall2 same_descriptor l (FormResponse.fields r)).
  { intros fd. unfold FormResponse_validate.
    simpl.
    destruct fd as [| | | | |l|]; simpl; try discriminate.
    destruct (validate_each FormField_validate l) as [e|ffs] eqn:Ev; simpl;
      [discriminate|].
    intros H; inversion H; subst r. simpl.
    split; [exact Hid|]. split; [reflexivity|].
    exists l. split; [reflexivity|].
    apply validate_each_Forall2 in Ev.
    eapply Forall2_impl; [|exact Ev]. exact FormField_validate_same. }
  destruct (Form.fields form) as [| | | |s|l0|kv0] eqn:Efs; cbn [res_bind];
    try (destruct (FormResponse_validate _ _ _) as [e|r0] eqn:Ev;
         intros H; inversion H; subst r0;
         destruct (Key _ Ev) as (K1 & K2 & l & Kl & K3); try discriminate Kl).
  - (* a stored string *)
    destruct (json_loads s) as [e|v] eqn:Ej; cbn [res_bind];
      [intros H; inversion H|].
    destruct (FormResponse_validate _ _ v) as [e|r0] eqn:Ev;
      intros H; inversion H; subst r0.
    destruct (Key _ Ev) as (K1 & K2 & l & -> & K3).
    split; [exact K1|]. exists form, l. repeat split; try assumption.
    right. exists s. now split.
  - (* a stored list *)
    inversion Kl; subst.
    split; [exact K1|]. exists form, l. repeat split; try assumption.
    now left.
Qed.

Lemma get_form_answer_is_stored_witness :
  FormResponse.form_id
    (FormResponse.mk "V1StGXR8_Z" "Survey" [FormField.mk "Name" "Text" None None])
  = "V1StGXR8_Z" /\
  exists form, In form (forms survey_db) /\ Form.name form = "Survey".
Proof.
  destruct (get_form_answer_is_stored no_json "V1StGXR8_Z" env0 survey_db
              (FormResponse.mk "V1StGXR8_Z" "Survey"
                 [FormField.mk "Name" "Text" None None])
              _ eq_refl) as [H1 (form & l & Hin & _ & Hn & _)].
  split; [exact H1|]. exists form. split; [exact Hin | exact Hn].
Defined.

Lemma filter_snoc {A : Type} (p : A -> bool) (l : list A) (a : A) :
  filter p (l ++ [a]) = if p a then filter p l ++ [a] else filter p l.
Proof.
  rewrite filter_app. simpl. destruct (p a); [reflexivity|apply app_nil_r].
Qed.



(** X6. A response submitted for one form never shows up in the list of
    another: whatever the outcome of the submission, [get_form_responses]
    on an identifier whose forms have other primary keys answers as
    before. *)
Theorem submit_elsewhere_not_listed (formId formId' : string)
    (rd : ResponseData.t) (en en' : env) (d : database)
    (out : res pyval) (w1 : world) :
  run (submit_form_response formId' rd) en d = (out, w1) ->
  (forall f f', In f (forms d) -> In f' (forms d) ->
                Form.form_id f = formId -> Form.form_id f' = formId' ->
                Form.id f <> Form.id f') ->
  fst (run (get_form_responses formId) en' (db w1))
  = fst (run (get_form_responses formId) en' d).
Proof.
  intros Hrun Hkeys.
  rewrite submit_form_response_run in Hrun.
  destruct (fault en OpQuery); [now inversion Hrun|].
  destruct (find (fun f => String.eqb (Form.form_id f) formId') (forms d))
    as [form'|] eqn:Ef'; [|now inversion Hrun].
  destruct (fault en OpCommit); [now inversion Hrun|]. cbv zeta in Hrun.
  destruct (find_form_some _ _ _ Ef') as [Hin' Hid'].
  assert (E : db w1 = mkDatabase (users d) (forms d)
                        (responses d ++
                           [Response.mk (Some (fresh_pk Response.id (responses d)))
                              (Form.id form') (PDict (ResponseData.data rd))])).
  { destruct (fault en OpRefresh); now inversion Hrun. }
  rewrite E, !get_form_responses_run. simpl.
  destruct (fault en' OpQuery); [reflexivity|].
  destruct (find (fun f => String.eqb (Form.form_id f) formId) (forms d))
    as [form|] eqn:Ef; [|reflexivity].
  destruct (find_form_some _ _ _ Ef) as [Hin Hid].
  rewrite filter_snoc.
  assert (Hp : response_of form
                 (Response.mk (Some (fresh_pk Response.id (responses d)))
                    (Form.id form') (PDict (ResponseData.data rd))) = false).
  { unfold response_of. simpl.
    pose proof (Hkeys form form' Hin Hin' Hid Hid') as Hne.
    destruct (Form.id form') as [a|]; [|reflexivity].
    destruct (Form.id form) as [b|]; [|reflexivity].
    apply Z.eqb_neq. intros ->. now apply Hne. }
  now rewrite Hp.
Qed.

Lemma submit_elsewhere_not_listed_witness :
  fst (run (get_form_responses "V1StGXR8_Z") env0
         (db (snd (run (submit_form_response "other_form" (ResponseData.mk []))
                     env0 two_forms_db))))
  = fst (run (get_form_responses "V1StGXR8_Z") env0 two_forms_db).
Proof.
  apply (submit_elsewhere_not_listed "V1StGXR8_Z" "other_form"
           (ResponseData.mk []) env0 env0 two_forms_db _ _ eq_refl).
  intros f f' [<- | [<- | []]] [<- | [<- | []]]; simpl; intros H1 H2;
    try discriminate H1; try discriminate H2. discriminate.
Defined.



(** X8. An upload is listed for its owner only: whatever its outcome, the
    answer of [get_user_forms] for every other user is the one from before
    the upload, and an upload without [user_id] changes the list of no
    user. *)
Theorem upload_not_listed_for_others (json_loads : string -> res pyval)
    (read_excel : string -> res DataFrame) (file : UploadFile)
    (user_id : option Z) (userId : Z) (en en' : env) (d : database)
    (out : res JSONResponse) (w' : world) :
  run (upload_file json_loads read_excel file user_id) en d = (out, w') ->
  user_id <> Some userId ->
  fst (run (get_user_forms userId) en' (db w'))
  = fst (run (get_user_forms userId) en' d).
Proof.
  intros Hrun Hne.
  rewrite upload_file_run in Hrun.
  destruct (read_form json_loads read_excel file) as [e|[n fs]].
  { now inversion Hrun. }
  rewrite save_form_run in Hrun. cbv zeta in Hrun. simpl in Hrun.
  destruct (fault en OpCommit); [now inversion Hrun|].
  destruct (bind_string (text_of en) n) as [e|name]; [now inversion Hrun|].
  destruct (existsb _ (forms d) || _); [now inversion Hrun|].
  assert (E : db w' = mkDatabase (users d)
                        (forms d ++ [Form.mk (Some (fresh_pk Form.id (forms d)))
                                       (nanoid en) user_id name fs])
                        (responses d)).
  { destruct (fault en OpRefresh); now inversion Hrun. }
  rewrite E, !get_user_forms_run. simpl. rewrite filter_snoc.
  assert (Ho : owned_by userId
                 (Form.mk (Some (fresh_pk Form.id (forms d))) (nanoid en)
                    user_id name fs) = false).
  { unfold owned_by. simpl. destruct user_id as [u|]; [|reflexivity].
    apply Z.eqb_neq. intros ->. now apply Hne. }
  now rewrite Ho.
Qed.

Lemma upload_not_listed_for_others_witness :
  fst (run (get_user_forms 7) env0
         (db (snd (run (upload_file no_json (fun _ => inr one_row_sheet)
                          (mkUploadFile "survey.xlsx" "PK..") None)
                     env0 empty_db))))
  = fst (run (get_user_forms 7) env0 empty_db).
Proof.
  apply (upload_not_listed_for_others no_json (fun _ => inr one_row_sheet)
           (mkUploadFile "survey.xlsx" "PK..") None 7%Z env0 env0 empty_db
           _ _ eq_refl).
  discriminate.
Defined.

(** X9. Register, then look up. After a registration that succeeded,
    [get_user_id] on the same auth-provider id returns the [user_id] that
    the registration returned. *)
Theorem register_then_get_user_id (ud : UserCreate.t) (en en' : env)
    (d : database) (v : pyval) (w1 : world) :
  run (register_user ud) en d = (inr v, w1) ->
  fault en' OpQuery = None ->
  exists k,
    py_get v "user_id" = inr (PInt k) /\
    fst (run (get_user_id (UserCreate.clerk_user_id ud)) en' (db w1))
    = inr (PDict [("user_id", PInt k)]).
Proof.
  intros Hrun Hq.
  rewrite register_user_run in Hrun.
  destruct (fault en OpQuery); [inversion Hrun|].
  destruct (find (fun u => String.eqb (User.clerk_user_id u)
                             (UserCreate.clerk_user_id ud)) (users d))
    as [u|] eqn:Ef; [inversion Hrun|].
  destruct (fault en OpCommit); [inversion Hrun|]. cbv zeta in Hrun.
  destruct (fault en OpRefresh); inversion Hrun; subst v w1. clear Hrun.
  exists (fresh_pk User.id (users d)). split; [reflexivity|].
  rewrite get_user_id_run, Hq. simpl.
  rewrite (find_app_fresh _ (users d)
             (User.mk (Some (fresh_pk User.id (users d)))
                (UserCreate.clerk_user_id ud) (UserCreate.email ud))).
  - reflexivity.
  - exact (proj1 (find_none_iff _ _) Ef).
  - simpl. apply String.eqb_refl.
Qed.

Lemma register_then_get_user_id_witness :
  exists k,
    py_get (PDict [("message", PStr "User registered successfully");
                   ("user_id", PInt 1)]) "user_id" = inr (PInt k) /\
    fst (run (get_user_id "user_2abc") env0
           (db (snd (run (register_user alice) env0 empty_db))))
    = inr (PDict [("user_id", PInt k)]).
Proof.
  apply (register_then_get_user_id alice env0 env0 empty_db _ _ eq_refl eq_refl).
Defined.

(** ** Registration and upload, path by path *)

(** X10. With the storage working, registering an auth-provider id that no
    stored user has succeeds: the answer carries the key of the new user,
    the store gains exactly that user with the id and the email of the
    request, and nothing is rolled back. *)
Theorem register_new_user (ud : UserCreate.t) (en : env) (d : database) :
  fault en OpQuery = None -> fault en OpCommit = None ->
  fault en OpRefresh = None ->
  (forall u, In u (users d) ->
             User.clerk_user_id u <> UserCreate.clerk_user_id ud) ->
  exists k w',
    run (register_user ud) en d
    = (inr (PDict [("message", PStr "User registered successfully");
                   ("user_id", PInt k)]), w') /\
    db w' = mkDatabase
              (users d ++ [User.mk (Some k) (UserCreate.clerk_user_id ud)
                             (UserCreate.email ud)])
              (forms d) (responses d) /\
    ~ In EvRollback (log w').
Proof.
  intros Hq Hc Hr Hno.
  assert (E : find (fun u => String.eqb (User.clerk_user_id u)
                               (UserCreate.clerk_user_id ud)) (users d) = None).
  { apply find_none_iff. intros u Hu. apply String.eqb_neq. now apply Hno. }
  rewrite register_user_run, Hq, E, Hc. cbv zeta. rewrite Hr.
  eexists _, _. split; [reflexivity|]. split; [reflexivity|].
  simpl. intros [H|[H|[H|[H|[H|[H|[]]]]]]]; discriminate H.
Qed.

Lemma register_new_user_witness :
  exists k w',
    run (register_user alice) env0 survey_db
    = (inr (PDict [("message", PStr "User registered successfully");
                   ("user_id", PInt k)]), w') /\
    db w' = mkDatabase
              (users survey_db ++ [User.mk (Some k) "user_2abc" "alice@example.org"])
              (forms survey_db) (responses survey_db).
Proof.
  destruct (register_new_user alice env0 survey_db eq_refl eq_refl eq_refl)
    as (k & w' & H1 & H2 & _).
  - intros u [].
  - exists k, w'. split; [exact H1 | exact H2].
Defined.

(** X11. A failure of the storage at the query or at the commit of a
    registration is rolled back and leaves the store as it was; the client
    gets a 400 "User with this email or Clerk ID already exists." when the
    storage reports a violated constraint, and a 500 that quotes the error
    for any other failure. *)
Theorem register_storage_failure (ud : UserCreate.t) (en : env) (d : database)
    (e : sqlalchemy_error) :
  fault en OpQuery = Some e \/
  (fault en OpQuery = None /\
   (forall u, In u (users d) ->
              User.clerk_user_id u <> UserCreate.clerk_user_id ud) /\
   fault en OpCommit = Some e) ->
  exists w',
    run (register_user ud) en d
    = (inl (match e with
            | IntegrityError =>
                HTTPException 400
                  (Text "User with this email or Clerk ID already exists.")
            | OperationalError =>
                HTTPException 500
                  (Caused "Error registering user: " (SAError OperationalError))
            end), w') /\
    db w' = d /\
    In EvRollback (log w').
Proof.
  intros [Hq | (Hq & Hno & Hc)]; rewrite register_user_run, Hq.
  - eexists. split; [destruct e; reflexivity|]. split; [reflexivity|].
    simpl. tauto.
  - assert (E : find (fun u => String.eqb (User.clerk_user_id u)
                                 (UserCreate.clerk_user_id ud)) (users d) = None).
    { apply find_none_iff. intros u Hu. apply String.eqb_neq. now apply Hno. }
    rewrite E, Hc.
    eexists. split; [destruct e; reflexivity|]. split; [reflexivity|].
    simpl. tauto.
Qed.

Lemma register_storage_failure_witness :
  exists w',
    run (register_user alice) (mkEnv "" (commit_fails IntegrityError)) empty_db
    = (inl (HTTPException 400
              (Text "User with this email or Clerk ID already exists.")), w') /\
    db w' = empty_db.
Proof.
  destruct (register_storage_failure alice
              (mkEnv "" (commit_fails IntegrityError)) empty_db IntegrityError)
    as (w' & H1 & H2 & _).
  - right. split; [reflexivity|]. split; [intros u []|reflexivity].
  - exists w'. split; [exact H1 | exact H2].
Defined.

(** X12. A file whose name ends neither in ".json" nor in ".xlsx" is refused
    with the 400 "Invalid file type. ..." whatever it contains: no session is
    opened and the store is not touched. *)
Theorem upload_other_file_type (json_loads : string -> res pyval)
    (read_excel : string -> res DataFrame) (file : UploadFile)
    (user_id : option Z) (en : env) (d : database) :
  PyStr.endswith (filename file) ".json" = false ->
  PyStr.endswith (filename file) ".xlsx" = false ->
  run (upload_file json_loads read_excel file user_id) en d
  = (inl (HTTPException 400
            (Text "Invalid file type. Please upload a JSON or Excel file.")),
     mkWorld d [] []).
Proof.
  intros Hj Hx. rewrite upload_file_run. unfold read_form.
  now rewrite Hj, Hx.
Qed.

Lemma upload_other_file_type_witness :
  run (upload_file (fun _ => inr (PDict survey_payload)) (fun _ => inr one_row_sheet)
         (mkUploadFile "survey.JSON" "{...}") None) env0 empty_db
  = (inl (HTTPException 400
            (Text "Invalid file type. Please upload a JSON or Excel file.")),
     mkWorld empty_db [] []).
Proof.
  apply (upload_other_file_type (fun _ => inr (PDict survey_payload))
           (fun _ => inr one_row_sheet) (mkUploadFile "survey.JSON" "{...}")
           None env0 empty_db); reflexivity.
Defined.

Lemma append_rows_inl (rows : list Series) :
  forall acc e, append_rows rows acc = inl e ->
                exists row, In row rows /\ field_json_of_row row = inl e.
Proof.
  induction rows as [|row rows IH]; simpl; intros acc e H; [discriminate|].
  destruct (field_json_of_row row) as [e'|dct] eqn:Ed; simpl in H.
  - inversion H; subst. exists row. split; [now left | exact Ed].
  - destruct (IH _ _ H) as [row' [Hin Hr]]. exists row'. split; [now right|exact Hr].
Qed.

Lemma append_rows_fails (rows : list Series) (row : Series) (e : exc) :
  In row rows -> field_json_of_row row = inl e ->
  forall acc, exists e', append_rows rows acc = inl e'.
Proof.
  induction rows as [|r rows IH]; simpl; intros Hin Hr acc; [contradiction|].
  destruct (field_json_of_row r) as [e'|dct] eqn:Ed; simpl.
  - now exists e'.
  - destruct Hin as [->|Hin]; [congruence|]. now apply IH.
Qed.

Lemma field_json_of_row_error (row : Series) (e : exc) :
  field_json_of_row row = inl e ->
  e = AttributeError "strip" \/ e = AttributeError "split".
Proof.
  unfold field_json_of_row.
  destruct (Series_get row "Label" (CStr "")); simpl;
    try (intros H; inversion H; now left).
  destruct (Series_get row "Type" (CStr "")); simpl;
    try (intros H; inversion H; now left).
  destruct (Series_get row "Required" (CStr "")); simpl;
    try (intros H; inversion H; now left).
  destruct (PyStr.in_list _ ["Dropdown"; "Multiple Choice"]); simpl;
    [|discriminate].
  destruct (Series_get row "Option" (CStr "")); simpl;
    try discriminate; intros H; inversion H; now right.
Qed.

(** X13. Every error of an [.xlsx] upload is one of two: the 500 "Error
    saving form to the database.", or a 400 "Error parsing Excel file: ..."
    that quotes its cause, which is what [read_excel] raised or what a row
    of the sheet raised; in the second case no session was opened and the
    store is as it was, so no part of the sheet is saved. *)
Theorem xlsx_upload_errors (json_loads : string -> res pyval)
    (read_excel : string -> res DataFrame) (file : UploadFile)
    (user_id : option Z) (en : env) (d : database) (e : exc) (w' : world) :
  PyStr.endswith (filename file) ".xlsx" = true ->
  run (upload_file json_loads read_excel file user_id) en d = (inl e, w') ->
  e = save_500 \/
  exists cause,
    e = HTTPException 400 (Caused "Error parsing Excel file: " cause) /\
    w' = mkWorld d [] [] /\
    (read_excel (contents file) = inl cause \/
     exists df row,
       read_excel (contents file) = inr df /\
       In row (iterrows df) /\ field_json_of_row row = inl cause).
Proof.
  intros Hx. rewrite upload_file_run, (read_form_xlsx _ _ _ Hx).
  unfold upload_xlsx.
  destruct (read_excel (contents file)) as [c|df] eqn:Er; simpl.
  { intros H; inversion H. right. exists c. repeat split. now left. }
  destruct (append_rows (iterrows df) []) as [c|l] eqn:Ea.
  { intros H; inversion H. right. exists c. repeat split. right.
    destruct (append_rows_inl _ _ _ Ea) as [row [Hin Hr]]. now exists df, row. }
  rewrite save_form_run. cbv zeta. simpl.
  destruct (fault en OpCommit); [intros H; inversion H; now left|].
  destruct (existsb _ (forms d) || _); [intros H; inversion H; now left|].
  destruct (fault en OpRefresh); intros H; inversion H; now left.
Qed.

Lemma xlsx_upload_errors_witness :
  exists cause,
    HTTPException 400 (Caused "Error parsing Excel file: " (OtherError "BadZipFile"))
    = HTTPException 400 (Caused "Error parsing Excel file: " cause) /\
    no_excel "not a workbook" = inl cause.
Proof.
  destruct (xlsx_upload_errors no_json no_excel
              (mkUploadFile "survey.xlsx" "not a workbook") None env0 empty_db
              _ _ eq_refl eq_refl) as [H | (cause & H1 & _ & [H2 | H2])].
  - discriminate H.
  - exists cause. split; [exact H1 | exact H2].
  - destruct H2 as (df & row & H & _). discriminate H.
Defined.

(** X14. One cell that is not text, an empty cell for instance, in the
    Label, Type or Required column of any row makes the whole sheet fail
    with the 400 "Error parsing Excel file: ...", its cause being that the
    cell has no [strip] or no [split]. *)
Theorem non_text_cell_aborts (read_excel : string -> res DataFrame)
    (form_name : pyval) (contents : string) (df : DataFrame) (row : Series)
    (key : string) :
  read_excel contents = inr df ->
  In row (iterrows df) ->
  In key ["Label"; "Type"; "Required"] ->
  (forall s, Series_get row key (CStr "") <> CStr s) ->
  exists attr,
    (attr = "strip" \/ attr = "split") /\
    upload_xlsx read_excel form_name contents
    = inl (HTTPException 400
             (Caused "Error parsing Excel file: " (AttributeError attr))).
Proof.
  intros Hr Hin Hkey Hcell.
  assert (Hrow : exists e, field_json_of_row row = inl e).
  { destruct (field_json_of_row row) as [e|dct] eqn:Ed; [now exists e|].
    destruct (field_json_of_row_inv _ _ Ed) as (l & t & r & Hl & Ht & Hq & _).
    simpl in Hkey. destruct Hkey as [<-|[<-|[<-|[]]]].
    - now elim (Hcell l).
    - now elim (Hcell t).
    - now elim (Hcell r). }
  destruct Hrow as [e He].
  destruct (append_rows_fails _ _ _ Hin He []) as [e' He'].
  destruct (append_rows_inl _ _ _ He') as [row' [_ Hr']].
  unfold upload_xlsx. rewrite Hr. simpl. rewrite He'.
  destruct (field_json_of_row_error _ _ Hr') as [-> | ->].
  - exists "strip". split; [now left | reflexivity].
  - exists "split". split; [now right | reflexivity].
Qed.

Lemma non_text_cell_aborts_witness :
  exists attr,
    upload_xlsx (fun _ => inr nan_sheet) (PStr "") "PK.."
    = inl (HTTPException 400
             (Caused "Error parsing Excel file: " (AttributeError attr))).
Proof.
  destruct (non_text_cell_aborts (fun _ => inr nan_sheet) (PStr "") "PK.."
              nan_sheet
              [("Label", CStr "Age"); ("Type", CStr "Text"); ("Required", CNaN)]
              "Required" eq_refl (or_intror (or_introl eq_refl))
              (or_intror (or_intror (or_introl eq_refl))))
    as (attr & _ & H).
  - intros s H. discriminate H.
  - exists attr. exact H.
Defined.

Lemma append_rows_Forall2 (rows : list Series) :
  forall acc l,
    append_rows rows acc = inr l ->
    exists ds,
      l = acc ++ map PDict ds /\
      Forall2 (fun row dct => field_json_of_row row = inr dct) rows ds.
Proof.
  induction rows as [|row rows IH]; simpl; intros acc l H.
  - inversion H. exists []. simpl. now rewrite app_nil_r.
  - destruct (field_json_of_row row) as [e|dct] eqn:Ed; simpl in H; [discriminate|].
    destruct (IH _ _ H) as (ds & -> & HF).
    exists (dct :: ds). simpl. rewrite <- app_assoc. split; [reflexivity|].
    now constructor.
Qed.

(** X15. The fields of an [.xlsx] upload follow the sheet: there is one
    descriptor for every row, in the order of the rows, and each is what the
    loop builds from its row alone. *)
Theorem xlsx_fields_follow_rows (read_excel : string -> res DataFrame)
    (form_name : pyval) (contents : string) (name fields : pyval) :
  upload_xlsx read_excel form_name contents = inr (name, fields) ->
  exists df ds,
    read_excel contents = inr df /\
    fields = PList (map PDict ds) /\
    List.length ds = List.length (values df) /\
    Forall2 (fun row dct => field_json_of_row row = inr dct) (iterrows df) ds.
Proof.
  intros H. apply upload_xlsx_inv in H.
  destruct H as [_ (df & l & Hdf & Hl & ->)].
  destruct (append_rows_Forall2 _ _ _ Hl) as (ds & -> & HF).
  exists df, ds. split; [exact Hdf|]. split; [reflexivity|].
  split; [|exact HF].
  apply Forall2_length in HF. unfold iterrows in HF.
  now rewrite length_map in HF.
Qed.

Lemma xlsx_fields_follow_rows_witness :
  exists df ds,
    (fun _ : string => @inr exc DataFrame one_row_sheet) "PK.." = inr df /\
    PList [PDict [("label", PStr "Name"); ("type", PStr "Text");
                  ("validation", PDict [("required", PBool true)])]]
    = PList (map PDict ds) /\
    List.length ds = List.length (values df).
Proof.
  destruct (xlsx_fields_follow_rows (fun _ => inr one_row_sheet) (PStr "")
              "PK.." (PStr "") _ eq_refl) as (df & ds & H1 & H2 & H3 & _).
  exists df, ds. split; [exact H1|]. split; [exact H2 | exact H3].
Defined.

(** ** The descriptors *)

(** X16. A descriptor built from a row has the key [options] exactly when
    the trimmed Type cell is "Dropdown" or "Multiple Choice", spelled just
    so; its keys are label, type and validation, followed by options in
    that case. *)
Theorem options_iff_choice_type (row : Series) (d : pydict) :
  field_json_of_row row = inr d ->
  exists t,
    Series_get row "Type" (CStr "") = CStr t /\
    (Dict.mem d "options" = true
     <-> PyStr.strip t = "Dropdown" \/ PyStr.strip t = "Multiple Choice") /\
    map fst d = if Dict.mem d "options"
                then ["label"; "type"; "validation"; "options"]
                else ["label"; "type"; "validation"].
Proof.
  intros H.
  destruct (field_json_of_row_inv _ _ H) as (l & t & r & _ & Ht & _ & Hd).
  exists t. split; [exact Ht|]. cbv zeta in Hd.
  assert (Hin : PyStr.in_list (PyStr.strip t) ["Dropdown"; "Multiple Choice"] = true
                <-> PyStr.strip t = "Dropdown" \/ PyStr.strip t = "Multiple Choice").
  { unfold PyStr.in_list. simpl. rewrite !orb_true_iff, !String.eqb_eq.
    intuition discriminate. }
  destruct Hd as [[Hc [o [_ ->]]] | [Hc ->]].
  - split; [|reflexivity]. split; [intros _; now apply Hin | reflexivity].
  - split; [|reflexivity]. split; [discriminate|].
    intros Hty. apply Hin in Hty. congruence.
Qed.

Lemma options_iff_choice_type_witness :
  exists t,
    Series_get (mk_row "Size" "dropdown" "no" "S, M, L") "Type" (CStr "") = CStr t /\
    (Dict.mem [("label", PStr "Size"); ("type", PStr "dropdown");
               ("validation", PDict [("required", PBool false)])] "options" = true
     <-> PyStr.strip t = "Dropdown" \/ PyStr.strip t = "Multiple Choice").
Proof.
  destruct (options_iff_choice_type (mk_row "Size" "dropdown" "no" "S, M, L") _
              eq_refl) as (t & Ht & Hiff & _).
  exists t. split; [exact Ht | exact Hiff].
Defined.

(** X17. The label and the type of a descriptor are the Label and Type
    cells without the white space around them, so neither begins or ends
    with white space; a sheet without the column gives the empty string. *)
Theorem label_and_type_trimmed (row : Series) (d : pydict) :
  field_json_of_row row = inr d ->
  exists l t,
    Series_get row "Label" (CStr "") = CStr l /\
    Series_get row "Type" (CStr "") = CStr t /\
    Dict.lookup d "label" = Some (PStr (PyStr.strip l)) /\
    Dict.lookup d "type" = Some (PStr (PyStr.strip t)) /\
    PyStr.strip (PyStr.strip l) = PyStr.strip l /\
    PyStr.strip (PyStr.strip t) = PyStr.strip t /\
    (~ In "Label" (map fst row) -> Dict.lookup d "label" = Some (PStr "")) /\
    (~ In "Type" (map fst row) -> Dict.lookup d "type" = Some (PStr "")).
Proof.
  intros H.
  destruct (field_json_of_row_inv _ _ H) as (l & t & r & Hl & Ht & _ & Hd).
  exists l, t. cbv zeta in Hd.
  assert (E : Dict.lookup d "label" = Some (PStr (PyStr.strip l)) /\
              Dict.lookup d "type" = Some (PStr (PyStr.strip t))).
  { destruct Hd as [[_ [o [_ ->]]] | [_ ->]]; split; reflexivity. }
  destruct E as [El Et].
  split; [exact Hl|]. split; [exact Ht|]. split; [exact El|]. split; [exact Et|].
  split; [apply strip_idem|]. split; [apply strip_idem|]. split.
  - intros Habs. rewrite (Series_get_absent _ _ _ Habs) in Hl.
    inversion Hl; subst l. exact El.
  - intros Habs. rewrite (Series_get_absent _ _ _ Habs) in Ht.
    inversion Ht; subst t. exact Et.
Qed.

Lemma label_and_type_trimmed_witness :
  exists l t,
    Series_get [("Label", CStr "  Your name ")] "Label" (CStr "") = CStr l /\
    Series_get [("Label", CStr "  Your name ")] "Type" (CStr "") = CStr t /\
    Dict.lookup [("label", PStr "Your name"); ("type", PStr "");
                 ("validation", PDict [("required", PBool false)])] "label"
    = Some (PStr (PyStr.strip l)).
Proof.
  destruct (label_and_type_trimmed [("Label", CStr "  Your name ")] _ eq_refl)
    as (l & t & Hl & Ht & El & _).
  exists l, t. split; [exact Hl|]. split; [exact Ht | exact El].
Defined.

(** X18. Every entry of the options of a descriptor is a string that is not
    empty, has no white space at either end and holds no comma. *)
Theorem options_entries_clean (row : Series) (d : pydict) (l : list pyval) :
  field_json_of_row row = inr d ->
  Dict.lookup d "options" = Some (PList l) ->
  Forall (fun v => exists s,
            v = PStr s /\ PyStr.nonempty s = true /\
            PyStr.strip s = s /\ PyStr.contains "," s = false) l.
Proof.
  intros H Ho.
  destruct (field_json_of_row_inv _ _ H) as (lb & t & r & _ & _ & _ & Hd).
  cbv zeta in Hd. destruct Hd as [[_ [o [_ ->]]] | [_ ->]]; [|discriminate Ho].
  simpl in Ho. inversion Ho; subst l. clear Ho.
  rewrite strip_nonempty_spec. fold (options_spec o).
  apply Forall_forall. intros v Hv. apply in_map_iff in Hv.
  destruct Hv as [s [<- Hs]].
  pose proof (proj1 (Forall_forall _ _) (options_spec_pieces o) s Hs)
    as (H1 & H2 & H3 & _).
  exists s. now repeat split.
Qed.

Lemma options_entries_clean_witness :
  Forall (fun v => exists s,
            v = PStr s /\ PyStr.nonempty s = true /\
            PyStr.strip s = s /\ PyStr.contains "," s = false)
    [PStr "Red"; PStr "Light green"].
Proof.
  apply (options_entries_clean
           (mk_row "Color" "Dropdown" "yes" " Red ,, Light green ,") _ _
           eq_refl eq_refl).
Defined.

(** ** The structured branch *)

Lemma truthy_false_iff (v : pyval) : truthy v = false <-> falsy v.
Proof.
  unfold falsy. split.
  - destruct v as [|b|n|f|s|l|kv]; simpl; intros H.
    + now left.
    + subst b. right. now left.
    + apply negb_false_iff, Z.eqb_eq in H. subst n. right. right. now left.
    + apply negb_false_iff in H. right. right. right. left. now exists f.
    + destruct s; [|discriminate H]. do 4 right. now left.
    + destruct l; [|discriminate H]. do 5 right. now left.
    + destruct kv; [|discriminate H]. do 6 right. reflexivity.
  - intros [->|[->|[->|[[f [-> Hf]]|[->|[->| ->]]]]]]; simpl; try reflexivity.
    now rewrite Hf.
Qed.

(** X19. A [.json] upload is refused with the 400 "JSON must contain
    'formName' and 'fields'." exactly when the value under one of the two
    keys is false for Python: the key is missing or null, or the value is
    false, a zero, an empty string, an empty list or an empty mapping. Any
    other pair of values, of whatever type, is handed on as it is. *)
Theorem json_rejected_iff_falsy (json_loads : string -> res pyval)
    (contents : string) (kv : pydict) :
  json_loads contents = inr (PDict kv) ->
  let form_name := match Dict.lookup kv "formName" with Some v => v | None => PNone end in
  let fields := match Dict.lookup kv "fields" with Some v => v | None => PNone end in
  (upload_json json_loads contents = inl json_400
   <-> falsy form_name \/ falsy fields) /\
  (~ (falsy form_name \/ falsy fields) ->
   upload_json json_loads contents = inr (form_name, fields)).
Proof.
  intros Hj. cbv zeta.
  rewrite (upload_json_dict json_loads contents kv Hj). cbv zeta.
  rewrite <- !truthy_false_iff.
  destruct (truthy match Dict.lookup kv "formName" with
                   | Some v => v | None => PNone end);
    destruct (truthy match Dict.lookup kv "fields" with
                     | Some v => v | None => PNone end); simpl.
  - split; [split; [discriminate | intros [H|H]; discriminate H]|reflexivity].
  - split; [split; [now right|reflexivity]|]. intros H. elim H. now right.
  - split; [split; [now left|reflexivity]|]. intros H. elim H. now left.
  - split; [split; [now left|reflexivity]|]. intros H. elim H. now left.
Qed.

Lemma json_rejected_iff_falsy_witness :
  upload_json (fun _ => inr (PDict [("formName", PInt 0);
                                     ("fields", PList survey_fields)])) "{...}"
  = inl json_400.
Proof.
  apply (proj1 (json_rejected_iff_falsy
                  (fun _ => inr (PDict [("formName", PInt 0);
                                        ("fields", PList survey_fields)]))
                  "{...}" _ eq_refl)).
  left. right. right. now left.
Defined.

(** X20. A [.json] file whose document cannot be decoded, or is decoded to
    something that is not a mapping, is not answered with a 400: the error
    of [json.loads], or the [AttributeError] of the missing [get], leaves
    the handler as it is, which the client sees as a 500. No session is
    opened and nothing is saved. *)
Theorem json_upload_not_a_mapping (json_loads : string -> res pyval)
    (read_excel : string -> res DataFrame) (file : UploadFile)
    (user_id : option Z) (en : env) (d : database) :
  PyStr.endswith (filename file) ".json" = true ->
  (forall e, json_loads (contents file) = inl e ->
             run (upload_file json_loads read_excel file user_id) en d
             = (inl e, mkWorld d [] [])) /\
  (forall data,
     json_loads (contents file) = inr data ->
     (forall kv, data <> PDict kv) ->
     run (upload_file json_loads read_excel file user_id) en d
     = (inl (AttributeError "get"), mkWorld d [] []) /\
     http_status 201
       (fst (run (upload_file json_loads read_excel file user_id) en d)) = 500%Z).
Proof.
  intros Hj. split.
  - intros e He. rewrite upload_file_run, (read_form_json _ _ _ Hj).
    unfold upload_json. now rewrite He.
  - intros data Hd Hno. rewrite upload_file_run, (read_form_json _ _ _ Hj).
    unfold upload_json. rewrite Hd.
    destruct data as [| | | | | |kv]; simpl; try (split; reflexivity).
    now elim (Hno kv).
Qed.

Lemma json_upload_not_a_mapping_witness :
  run (upload_file (fun _ => inr (PList survey_fields)) no_excel
         (mkUploadFile "survey.json" "[...]") None) env0 empty_db
  = (inl (AttributeError "get"), mkWorld empty_db [] []).
Proof.
  apply (proj2 (json_upload_not_a_mapping (fun _ => inr (PList survey_fields))
                  no_excel (mkUploadFile "survey.json" "[...]") None env0
                  empty_db eq_refl) (PList survey_fields) eq_refl).
  intros kv H. discriminate H.
Defined.

(** X21. With the storage working, an identifier that no stored form has
    and a [user_id] that is missing or is the key of a stored user, a
    [.json] upload whose name and fields are true for Python is saved when
    the store can bind the name to its string column, and answered with a
    201 that carries the identifier. A name that is a string is stored as it
    is, a name of another type as the text that the driver makes of it; the
    fields are stored as they are. When the driver refuses the name, no form
    is saved and the client gets the 500 "Error saving form to the
    database." after a rollback. *)
Theorem json_upload_saved (json_loads : string -> res pyval)
    (read_excel : string -> res DataFrame) (file : UploadFile)
    (user_id : option Z) (en : env) (d : database)
    (kv : pydict) (form_name fields : pyval) :
  PyStr.endswith (filename file) ".json" = true ->
  json_loads (contents file) = inr (PDict kv) ->
  Dict.lookup kv "formName" = Some form_name -> truthy form_name = true ->
  Dict.lookup kv "fields" = Some fields -> truthy fields = true ->
  fault en OpCommit = None -> fault en OpRefresh = None ->
  (forall f, In f (forms d) -> Form.form_id f <> nanoid en) ->
  references User.id (users d) user_id = true ->
  (forall name,
     bind_string (text_of en) form_name = inr name ->
     exists k,
       run (upload_file json_loads read_excel file user_id) en d
       = (inr (mkJSONResponse
                 (PDict [("message", PStr "Form uploaded successfully");
                         ("form_id", PStr (nanoid en))]) 201),
          mkWorld
            (mkDatabase (users d)
               (forms d ++ [Form.mk (Some k) (nanoid en) user_id name fields])
               (responses d))
            [] [EvOpen; EvAdd; EvCommit; EvRefresh; EvClose])) /\
  (forall s, form_name = PStr s -> bind_string (text_of en) form_name = inr s) /\
  (forall e,
     bind_string (text_of en) form_name = inl e ->
     run (upload_file json_loads read_excel file user_id) en d
     = (inl save_500,
        mkWorld d [] [EvOpen; EvAdd; EvCommit; EvRollback; EvClose])).
Proof.
  intros Hj Hd Hn Tn Hf Tf Hc Hr Hfresh Hfk.
  assert (E : existsb (fun f' => String.eqb (Form.form_id f') (nanoid en)) (forms d)
              = false).
  { apply existsb_find_none. apply find_none_iff.
    intros f Hin. apply String.eqb_neq. now apply Hfresh. }
  assert (R : run (upload_file json_loads read_excel file user_id) en d
              = save_form user_id form_name fields en (mkWorld d [] [])).
  { rewrite upload_file_run, (read_form_json _ _ _ Hj),
      (upload_json_dict json_loads _ kv Hd). cbv zeta.
    now rewrite Hn, Hf, Tn, Tf. }
  rewrite R, save_form_run. cbv zeta. simpl. rewrite Hc, Hr, E, Hfk. simpl.
  split; [|split].
  - intros name Hb. rewrite Hb. eexists. reflexivity.
  - intros s ->. reflexivity.
  - intros e Hb. now rewrite Hb.
Qed.

Lemma json_upload_saved_witness :
  exists k,
    run (upload_file (fun _ => inr (PDict survey_payload)) no_excel
           (mkUploadFile "survey.json" "{...}") (Some 7%Z)) env0 alice_db
    = (inr (mkJSONResponse
              (PDict [("message", PStr "Form uploaded successfully");
                      ("form_id", PStr "V1StGXR8_Z")]) 201),
       mkWorld
         (mkDatabase [alice_user]
            [Form.mk (Some k) "V1StGXR8_Z" (Some 7%Z) "Survey"
               (PList survey_fields)] [])
         [] [EvOpen; EvAdd; EvCommit; EvRefresh; EvClose]).
Proof.
  apply (proj1 (json_upload_saved (fun _ => inr (PDict survey_payload)) no_excel
                  (mkUploadFile "survey.json" "{...}") (Some 7%Z) env0 alice_db
                  survey_payload (PStr "Survey") (PList survey_fields)
                  eq_refl eq_refl eq_refl eq_refl eq_refl eq_refl eq_refl eq_refl
                  (fun f (H : In f []) => match H with end) eq_refl)
           "Survey" eq_refl).
Defined.

(** A name that is a number is stored as its decimal text by a driver that
    does so, and a name that is a list, which that driver refuses, makes the
    upload fail with the 500. *)
Example json_upload_number_name :
  forms (db (snd (run (upload_file
                         (fun _ => inr (PDict [("formName", PInt 5);
                                               ("fields", PList survey_fields)]))
                         no_excel (mkUploadFile "survey.json" "{...}") None)
                    env0 empty_db)))
  = [Form.mk (Some 1%Z) "V1StGXR8_Z" None "5" (PList survey_fields)].
Proof. reflexivity. Qed.

Example json_upload_list_name :
  run (upload_file
         (fun _ => inr (PDict [("formName", PList [PStr "Survey"]);
                               ("fields", PList survey_fields)]))
         no_excel (mkUploadFile "survey.json" "{...}") None)
    env0 empty_db
  = (inl save_500,
     mkWorld empty_db [] [EvOpen; EvAdd; EvCommit; EvRollback; EvClose]).
Proof. reflexivity. Qed.

(** An upload in the name of a user that the store does not have is refused
    by the store, and answered with the same 500. *)
Example upload_unknown_user :
  run (upload_file (fun _ => inr (PDict survey_payload)) no_excel
         (mkUploadFile "survey.json" "{...}") (Some 7%Z)) env0 empty_db
  = (inl save_500,
     mkWorld empty_db [] [EvOpen; EvAdd; EvCommit; EvRollback; EvClose]).
Proof. reflexivity. Qed.

(** ** Saving, and the session *)

(** X22. Once the file is read, whatever makes an upload fail gives the
    client the same 500 "Error saving form to the database.", after a
    rollback. The store is as it was, with one exception: when only the
    refresh fails, after the commit, the form is saved although the client
    is told of an error. *)
Theorem upload_save_errors (json_loads : string -> res pyval)
    (read_excel : string -> res DataFrame) (file : UploadFile)
    (user_id : option Z) (en : env) (d : database)
    (form_name fields : pyval) (e : exc) (w' : world) :
  read_form json_loads read_excel file = inr (form_name, fields) ->
  run (upload_file json_loads read_excel file user_id) en d = (inl e, w') ->
  e = save_500 /\
  In EvRollback (log w') /\
  (db w' = d \/
   (fault en OpCommit = None /\ fault en OpRefresh <> None /\
    exists k name,
      bind_string (text_of en) form_name = inr name /\
      db w' = mkDatabase (users d)
                (forms d ++ [Form.mk (Some k) (nanoid en) user_id name fields])
                (responses d))).
Proof.
  intros Hread. rewrite upload_file_run, Hread, save_form_run. cbv zeta. simpl.
  destruct (fault en OpCommit) as [c|] eqn:Ec.
  { intros H; inversion H. split; [reflexivity|]. split; [simpl; tauto|now left]. }
  destruct (bind_string (text_of en) form_name) as [b|name] eqn:Eb.
  { intros H; inversion H. split; [reflexivity|]. split; [simpl; tauto|now left]. }
  destruct (existsb _ (forms d) || _).
  { intros H; inversion H. split; [reflexivity|]. split; [simpl; tauto|now left]. }
  destruct (fault en OpRefresh) as [r|] eqn:Er; intros H; inversion H.
  split; [reflexivity|]. split; [simpl; tauto|]. right.
  split; [reflexivity|]. split; [discriminate|]. eexists _, name.
  split; reflexivity.
Qed.

Lemma upload_save_errors_witness :
  exists w',
    run (upload_file (fun _ => inr (PDict survey_payload)) no_excel
           (mkUploadFile "survey.json" "{...}") None)
      (mkEnv "abcdefghij" (commit_fails IntegrityError)) survey_db
    = (inl save_500, w') /\
    In EvRollback (log w').
Proof.
  eexists. split; [reflexivity|].
  apply (upload_save_errors (fun _ => inr (PDict survey_payload)) no_excel
           (mkUploadFile "survey.json" "{...}") None
           (mkEnv "abcdefghij" (commit_fails IntegrityError)) survey_db
           (PStr "Survey") (PList survey_fields) _ _ eq_refl eq_refl).
Defined.

(** X23. With the storage working, a response for an identifier that a
    stored form has is saved, whatever its data: the answer carries the key
    of the new response, which holds the data as sent and the primary key
    of the first stored form with that identifier; users and forms stay. *)
Theorem submit_saved (formId : string) (rd : ResponseData.t) (en : env)
    (d : database) :
  fault en OpQuery = None -> fault en OpCommit = None ->
  fault en OpRefresh = None ->
  (exists f, In f (forms d) /\ Form.form_id f = formId) ->
  exists k form w',
    run (submit_form_response formId rd) en d
    = (inr (PDict [("message", PStr "Response submitted successfully");
                   ("response_id", PInt k)]), w') /\
    In form (forms d) /\ Form.form_id form = formId /\
    db w' = mkDatabase (users d) (forms d)
              (responses d ++ [Response.mk (Some k) (Form.id form)
                                 (PDict (ResponseData.data rd))]).
Proof.
  intros Hq Hc Hr Hex.
  destruct (find_form_exists _ _ Hex) as [form Hf].
  destruct (find_form_some _ _ _ Hf) as [Hin Hid].
  rewrite submit_form_response_run, Hq, Hf, Hc. cbv zeta. rewrite Hr.
  eexists _, form, _. repeat split; assumption.
Qed.

Lemma submit_saved_witness :
  exists k form w',
    run (submit_form_response "V1StGXR8_Z" (ResponseData.mk [("Age", PInt 41)]))
      env0 survey_db
    = (inr (PDict [("message", PStr "Response submitted successfully");
                   ("response_id", PInt k)]), w') /\
    In form (forms survey_db).
Proof.
  destruct (submit_saved "V1StGXR8_Z" (ResponseData.mk [("Age", PInt 41)])
              env0 survey_db eq_refl eq_refl eq_refl
              (ex_intro _ survey_form (conj (or_introl eq_refl) eq_refl)))
    as (k & form & w' & H1 & H2 & _).
  exists k, form, w'. split; [exact H1 | exact H2].
Defined.

(** X24. When the commit goes through and the refresh after it fails, the
    record stays in the store although the request ends in an error: the
    response of [submit_form_response], with the error of the storage
    leaving the handler as it is, and the user of [register_user], with the
    error of its [except] clauses. *)
Theorem refresh_failure_keeps_record (en : env) (d : database)
    (e : sqlalchemy_error) :
  fault en OpQuery = None -> fault en OpCommit = None ->
  fault en OpRefresh = Some e ->
  (forall formId rd,
     (exists f, In f (forms d) /\ Form.form_id f = formId) ->
     exists r w',
       run (submit_form_response formId rd) en d = (inl (SAError e), w') /\
       Response.data r = PDict (ResponseData.data rd) /\
       responses (db w') = responses d ++ [r]) /\
  (forall ud,
     (forall u, In u (users d) ->
                User.clerk_user_id u <> UserCreate.clerk_user_id ud) ->
     exists u w',
       run (register_user ud) en d = (inl (register_error (SAError e)), w') /\
       User.clerk_user_id u = UserCreate.clerk_user_id ud /\
       users (db w') = users d ++ [u]).
Proof.
  intros Hq Hc Hr. split.
  - intros formId rd Hex.
    destruct (find_form_exists _ _ Hex) as [form Hf].
    rewrite submit_form_response_run, Hq, Hf, Hc. cbv zeta. rewrite Hr.
    exists (Response.mk (Some (fresh_pk Response.id (responses d))) (Form.id form)
              (PDict (ResponseData.data rd))).
    eexists. split; [reflexivity|]. split; reflexivity.
  - intros ud Hno.
    assert (E : find (fun u => String.eqb (User.clerk_user_id u)
                                 (UserCreate.clerk_user_id ud)) (users d) = None).
    { apply find_none_iff. intros u Hu. apply String.eqb_neq. now apply Hno. }
    rewrite register_user_run, Hq, E, Hc. cbv zeta. rewrite Hr.
    exists (User.mk (Some (fresh_pk User.id (users d)))
              (UserCreate.clerk_user_id ud) (UserCreate.email ud)).
    eexists. split; [reflexivity|]. split; reflexivity.
Qed.

Lemma refresh_failure_keeps_record_witness :
  exists r w',
    run (submit_form_response "V1StGXR8_Z" (ResponseData.mk [("Age", PInt 41)]))
      (mkEnv "" refresh_fails) survey_db
    = (inl (SAError OperationalError), w') /\
    Response.data r = PDict [("Age", PInt 41)] /\
    responses (db w') = responses survey_db ++ [r].
Proof.
  apply (proj1 (refresh_failure_keeps_record (mkEnv "" refresh_fails) survey_db
                  OperationalError eq_refl eq_refl eq_refl)
           "V1StGXR8_Z" (ResponseData.mk [("Age", PInt 41)])).
  exists survey_form. split; [now left | reflexivity].
Defined.

(** X25. Every request releases its session on every path: whether a
    handler returns, raises a 4xx or is hit by a failure of the storage, no
    object is left in the session, and a session that was opened is closed
    by the last call made on it. *)
Theorem sessions_always_released (json_loads : string -> res pyval)
    (read_excel : string -> res DataFrame) (en : env) (d : database) :
  (forall ud, session_released (snd (run (register_user ud) en d))) /\
  (forall file user_id,
     session_released
       (snd (run (upload_file json_loads read_excel file user_id) en d))) /\
  (forall form_id,
     session_released (snd (run (get_form json_loads form_id) en d))) /\
  (forall formId rd,
     session_released (snd (run (submit_form_response formId rd) en d))) /\
  (forall formId, session_released (snd (run (get_form_responses formId) en d))) /\
  (forall userId, session_released (snd (run (get_user_forms userId) en d))) /\
  (forall clerk_user_id,
     session_released (snd (run (get_user_id clerk_user_id) en d))).
Proof.
  unfold session_released. repeat split.
  all: try (rewrite get_form_run; simpl; first [reflexivity | now right]).
  all: try (rewrite get_user_forms_run; simpl; first [reflexivity | now right]).
  all: try (rewrite get_user_id_run; simpl; first [reflexivity | now right]).
  all: try (rewrite register_user_run;
            destruct (fault en OpQuery); [simpl; first [reflexivity | now right]|];
            destruct (find _ (users d)); [simpl; first [reflexivity | now right]|];
            destruct (fault en OpCommit); [simpl; first [reflexivity | now right]|];
            cbv zeta; destruct (fault en OpRefresh); simpl;
            first [reflexivity | now right]).
  all: try (rewrite submit_form_response_run;
            destruct (fault en OpQuery); [simpl; first [reflexivity | now right]|];
            destruct (find _ (forms d)); [|simpl; first [reflexivity | now right]];
            destruct (fault en OpCommit); [simpl; first [reflexivity | now right]|];
            cbv zeta; destruct (fault en OpRefresh); simpl;
            first [reflexivity | now right]).
  all: try (rewrite get_form_responses_run;
            destruct (fault en OpQuery); [simpl; first [reflexivity | now right]|];
            destruct (find _ (forms d)); simpl; first [reflexivity | now right]).
  all: rewrite upload_file_run;
    destruct (read_form json_loads read_excel file) as [e|[n fs]];
    [simpl; first [reflexivity | now left]|];
    rewrite save_form_run; cbv zeta; simpl;
    destruct (fault en OpCommit); [simpl; first [reflexivity | now right]|];
    destruct (bind_string (text_of en) n); [simpl; first [reflexivity | now right]|];
    destruct (existsb _ (forms d) || _); [simpl; first [reflexivity | now right]|];
    destruct (fault en OpRefresh); simpl; first [reflexivity | now right].
Qed.

Lemma validate_each_fails {A : Type} (f : pyval -> res A) (l : list pyval)
    (v : pyval) (e : exc) :
  In v l -> f v = inl e -> exists e', validate_each f l = inl e'.
Proof.
  induction l as [|x l IH]; simpl; intros Hin Hv; [contradiction|].
  destruct (f x) as [e'|a] eqn:Ex; simpl; [now exists e'|].
  destruct Hin as [->|Hin]; [congruence|].
  destruct (IH Hin Hv) as [e' ->]. simpl. now exists e'.
Qed.

(** X26. A stored form with a descriptor that is not a mapping, or that has
    no label or no type, cannot be fetched: [get_form] finds it and then
    fails in the validation of the answer, an error that its [except]
    clause does not catch and that the client sees as a 500. *)
Theorem get_form_rejects_descriptor (json_loads : string -> res pyval)
    (form_id : string) (en : env) (d : database) (form : Form.t)
    (l : list pyval) (v : pyval) :
  fault en OpQuery = None ->
  find (fun f => String.eqb (Form.form_id f) form_id) (forms d) = Some form ->
  Form.fields form = PList l ->
  In v l ->
  (forall kv, v = PDict kv ->
              Dict.lookup kv "label" = None \/ Dict.lookup kv "type" = None) ->
  fst (run (get_form json_loads form_id) en d) = inl ValidationError /\
  http_status 200 (fst (run (get_form json_loads form_id) en d)) = 500%Z.
Proof.
  intros Hq Hf Hl Hin Hv.
  assert (Ev : FormField_validate v = inl ValidationError).
  { destruct v as [| | | | | |kv]; try reflexivity. simpl.
    destruct (Hv kv eq_refl) as [E|E].
    - now rewrite E.
    - rewrite E.
      destruct (validate_required validate_str (Dict.lookup kv "label"))
        as [e|a] eqn:El; simpl; [|reflexivity].
      destruct (Dict.lookup kv "label") as [x|]; simpl in El.
      + apply validate_str_error in El. now subst e.
      + now inversion El. }
  assert (E : FormResponse_validate (Form.form_id form) (PStr (Form.name form))
                (PList l)
              = inl ValidationError).
  { destruct (FormResponse_validate (Form.form_id form) (PStr (Form.name form))
                (PList l))
      as [e|r] eqn:Er.
    - apply FormResponse_validate_error in Er. now subst e.
    - exfalso. unfold FormResponse_validate in Er.
      simpl in Er.
      destruct (validate_each_fails FormField_validate l v _ Hin Ev) as [e' He'].
      rewrite He' in Er. discriminate Er. }
  rewrite (get_form_stored_list json_loads form_id en d form l Hq Hf Hl), E.
  split; reflexivity.
Qed.

Lemma get_form_rejects_descriptor_witness :
  fst (run (get_form no_json "V1StGXR8_Z") env0
         (mkDatabase []
            [Form.mk (Some 1%Z) "V1StGXR8_Z" None "Survey"
               (PList untyped_fields)] []))
  = inl ValidationError.
Proof.
  apply (get_form_rejects_descriptor no_json "V1StGXR8_Z" env0
           (mkDatabase []
              [Form.mk (Some 1%Z) "V1StGXR8_Z" None "Survey"
                 (PList untyped_fields)] [])
           _ untyped_fields (PDict [("label", PStr "Name")])
           eq_refl eq_refl eq_refl (or_introl eq_refl)).
  intros kv H. inversion H. now right.
Defined.
